(** * TwilioWeatherStation: observation sampler, alarm and shadow engine

    A shallow embedding of [TwilioWeatherStation] (class declaration in the
    header, member functions in the .cpp file) and the proofs of its
    specified properties.

    Conventions of the embedding:
    - [int32_t], [uint8_t], [uint64_t] are [Z] with the wrap-around of every
      arithmetic operation and conversion written out ([I32.wrap], ...);
    - [float] is IEEE binary32 and [double] binary64, both carried by
      [spec_float] and computed with the operations of [SpecFloat];
    - the member functions run in a state-and-fault monad over the object's
      fields; the calls made on the collaborators (serial console, MQTT
      publish, Twilio message, NTP client, sensors) are recorded in order
      in the [log] of the state;
    - what the sensors and the clock deliver is an explicit input of the
      function that reads them;
    - functions of the C library and constants declared elsewhere are the
      fields of a [Platform]. *)

From Stdlib Require Import ZArith String Ascii List Lia Bool.
From Stdlib Require Import Floats.SpecFloat Floats.PrimFloat Floats.FloatOps.
From Stdlib Require Import DecimalString.
Import ListNotations.

Set Warnings "-inexact-float,-register-all".
Local Open Scope string_scope.
Local Open Scope Z_scope.

(** ** Machine integers *)

Module I32.
Definition min_signed : Z := - 2 ^ 31.
Definition max_signed : Z := 2 ^ 31 - 1.
Definition in_range (z : Z) : Prop := min_signed <= z <= max_signed.
(** Reduction of an integer to the two's complement 32-bit range. *)
Definition wrap (z : Z) : Z := (z + 2 ^ 31) mod 2 ^ 32 - 2 ^ 31.
Definition add (a b : Z) : Z := wrap (a + b).
Definition mul (a b : Z) : Z := wrap (a * b).
End I32.

Module U8.
Definition wrap (z : Z) : Z := z mod 2 ^ 8.
End U8.

Module U64.
Definition wrap (z : Z) : Z := z mod 2 ^ 64.
Definition add (a b : Z) : Z := wrap (a + b).
End U64.

(** ** Floating point *)

(** [double]: IEEE binary64. *)
Module F64.
Definition prec : Z := 53.
Definition emax : Z := 1024.
Definition add : spec_float -> spec_float -> spec_float := SFadd prec emax.
Definition mul : spec_float -> spec_float -> spec_float := SFmul prec emax.
Definition div : spec_float -> spec_float -> spec_float := SFdiv prec emax.
Definition of_Z (z : Z) : spec_float := binary_normalize prec emax z 0 false.
(** Every binary32 value is a binary64 value: the promotion is exact, and
    gives the mantissa its binary64 form. *)
Definition of_f32 (x : spec_float) : spec_float :=
  match x with
  | S754_finite s m e => binary_normalize prec emax (cond_Zopp s (Zpos m)) e s
  | _ => x
  end.
End F64.

(** [float]: IEEE binary32. *)
Module F32.
Definition prec : Z := 24.
Definition emax : Z := 128.
Definition add : spec_float -> spec_float -> spec_float := SFadd prec emax.
Definition mul : spec_float -> spec_float -> spec_float := SFmul prec emax.
Definition div : spec_float -> spec_float -> spec_float := SFdiv prec emax.
Definition of_Z (z : Z) : spec_float := binary_normalize prec emax z 0 false.
(** The cast [(float)d] of a double, rounding to nearest even. *)
Definition of_f64 (d : spec_float) : spec_float :=
  match d with
  | S754_finite s m e => binary_normalize prec emax (cond_Zopp s (Zpos m)) e s
  | _ => d
  end.
Definition zero : spec_float := S754_zero false.
(** [isnan(x)]. *)
Definition isnan (x : spec_float) : bool :=
  match x with S754_nan => true | _ => false end.
(** A float used as a condition: false for +0 and -0, true otherwise
    (also for a NaN and for an infinity). *)
Definition to_bool (x : spec_float) : bool :=
  match x with S754_zero _ => false | _ => true end.
Definition is_finite (x : spec_float) : bool :=
  match x with S754_zero _ | S754_finite _ _ _ => true | _ => false end.
End F32.

(** ** Strings *)

(** The C string held by a [String] or a buffer: the bytes before the
    first NUL. *)
Fixpoint c_str (s : string) : string :=
  match s with
  | EmptyString => EmptyString
  | String c r =>
      if Ascii.eqb c Ascii.zero then EmptyString else String c (c_str r)
  end.

(** The first [n] bytes of [s]. *)
Fixpoint take (n : nat) (s : string) : string :=
  match n, s with
  | S n', String c r => String c (take n' r)
  | _, _ => EmptyString
  end.

(** [%i] of an [int]. *)
Definition decimal (z : Z) : string := NilZero.string_of_int (Z.to_int z).

Inductive PfArg : Type :=
| PfStr (s : string)
| PfInt (z : Z).

(** The text [printf] produces for the conversions the program uses: [%s],
    [%i], and the directive [% H] of the report format, which is not a
    conversion of the C standard; [bad] is what the C library prints for
    it.  [None] when the format uses anything else or the arguments do not
    match. *)
Fixpoint vformat (bad : string) (fmt : string) (args : list PfArg)
  : option string :=
  match fmt with
  | EmptyString => Some EmptyString
  | String c rest =>
      if Ascii.eqb c "%" then
        match rest with
        | String d rest' =>
            if Ascii.eqb d "s" then
              match args with
              | PfStr s :: args' =>
                  option_map (append (c_str s)) (vformat bad rest' args')
              | _ => None
              end
            else if Ascii.eqb d "i" then
              match args with
              | PfInt z :: args' =>
                  option_map (append (decimal z)) (vformat bad rest' args')
              | _ => None
              end
            else if Ascii.eqb d " " then
              match rest' with
              | String h rest'' =>
                  if Ascii.eqb h "H"
                  then option_map (append bad) (vformat bad rest'' args)
                  else None
              | EmptyString => None
              end
            else None
        | EmptyString => None
        end
      else option_map (String c) (vformat bad rest args)
  end.

(** [snprintf(buf, n, fmt, ...)] followed by reading [buf] as a C string:
    at most [n - 1] bytes of the formatted text are stored before the
    terminating NUL. *)
Definition snprintf (bad : string) (n : Z) (fmt : string) (args : list PfArg)
  : option string :=
  option_map (fun s => c_str (take (Z.to_nat (n - 1)) s))
    (vformat bad fmt args).

(** ** Weather and constant definitions *)

Definition HPA_TO_IN_MERCURY : spec_float :=
  Eval vm_compute in Prim2SF 0.0295299830714%float.
Definition GRAVITATIONAL_ACCELERATION : spec_float :=
  Eval vm_compute in Prim2SF 9.807%float.
Definition ATM_JOULES_PER_KILOGRAM_KELVIN : spec_float :=
  Eval vm_compute in Prim2SF 287.1%float.
Definition E_CONSTANT : spec_float :=
  Eval vm_compute in Prim2SF 2.718281828182%float.
Definition KELVIN_OFFSET : spec_float :=
  Eval vm_compute in Prim2SF 273.1%float.
Definition MM_PER_INCH : spec_float :=
  Eval vm_compute in Prim2SF 25.4%float.

(** [10*60*1000] and [3*60*1000] milliseconds. *)
Definition UPDATE_NTP_INTERVAL : Z := 10 * 60 * 1000.
Definition RECHECK_WEATHER_INTERVAL : Z := 3 * 60 * 1000.

(** [(RECHECK_WEATHER_INTERVAL/1000)*2], in [int] arithmetic: the width in
    seconds of the window in which a passed alarm still rings. *)
Definition ALARM_WINDOW : Z :=
  I32.mul (Z.quot RECHECK_WEATHER_INTERVAL 1000) 2.

(** ** Data model *)

Record WObservation : Type := mkObs {
  temperature : spec_float;   (* float, Celsius *)
  humidity    : spec_float;   (* float, percent *)
  pressure    : spec_float;   (* float, hPa *)
  day         : Z;            (* uint8_t *)
  hour        : Z;            (* uint8_t *)
  minute      : Z;            (* uint8_t *)
  second      : Z;            (* uint8_t *)
  epoch       : Z             (* int32_t *)
}.

Record Alarm : Type := mkAlarm {
  timestamp : Z;              (* int32_t *)
  rang      : bool
}.

(** A JSON tree built in a [StaticJsonBuffer]. *)
Inductive Json : Type :=
| JInt (z : Z)
| JStr (s : string)
| JObj (members : list (string * Json)).

Inductive SerialArg : Type :=
| SStr (s : string)
| SInt (z : Z)
| SFloat (f : spec_float).

(** The calls made on the collaborators of the station. *)
Inductive Event : Type :=
| Serial (a : SerialArg)
    (* lambdaHelper.print_to_serial *)
| Publish (topic : string) (payload : string)
    (* lambdaHelper.publish_to_topic *)
| SendTwilio (topic to_number from_number body media : string)
    (* lambdaHelper.send_twilio_message *)
| NtpInit (server : string) (offset interval : Z)
| NtpBegin
| NtpUpdate
| NtpSetTimeOffset (offset : Z)
| NtpForceUpdate
| DhtInit (pin type : Z)
| DhtBegin
| BmpInit (id : Z)
| Delay (ms : Z).

Record Station : Type := mkStation {
  last_observation     : WObservation;
  last_weather_check   : Z;          (* uint64_t *)
  next_alarm           : Alarm;
  location_altitude    : Z;          (* int32_t *)
  time_zone_offset     : Z;          (* int32_t *)
  master_number        : string;
  twilio_device_number : string;
  unit_type            : string;
  shadow_topic         : string;
  twilio_topic         : string;
  log                  : list Event
}.

Definition set_last_observation (o : WObservation) (st : Station) : Station :=
  mkStation o (last_weather_check st) (next_alarm st) (location_altitude st)
    (time_zone_offset st) (master_number st) (twilio_device_number st)
    (unit_type st) (shadow_topic st) (twilio_topic st) (log st).

Definition set_last_weather_check (t : Z) (st : Station) : Station :=
  mkStation (last_observation st) t (next_alarm st) (location_altitude st)
    (time_zone_offset st) (master_number st) (twilio_device_number st)
    (unit_type st) (shadow_topic st) (twilio_topic st) (log st).

Definition set_next_alarm (a : Alarm) (st : Station) : Station :=
  mkStation (last_observation st) (last_weather_check st) a
    (location_altitude st) (time_zone_offset st) (master_number st)
    (twilio_device_number st) (unit_type st) (shadow_topic st)
    (twilio_topic st) (log st).

Definition set_location_altitude (z : Z) (st : Station) : Station :=
  mkStation (last_observation st) (last_weather_check st) (next_alarm st) z
    (time_zone_offset st) (master_number st) (twilio_device_number st)
    (unit_type st) (shadow_topic st) (twilio_topic st) (log st).

Definition set_time_zone_offset (z : Z) (st : Station) : Station :=
  mkStation (last_observation st) (last_weather_check st) (next_alarm st)
    (location_altitude st) z (master_number st) (twilio_device_number st)
    (unit_type st) (shadow_topic st) (twilio_topic st) (log st).

Definition set_master_number (s : string) (st : Station) : Station :=
  mkStation (last_observation st) (last_weather_check st) (next_alarm st)
    (location_altitude st) (time_zone_offset st) s (twilio_device_number st)
    (unit_type st) (shadow_topic st) (twilio_topic st) (log st).

Definition set_twilio_device_number (s : string) (st : Station) : Station :=
  mkStation (last_observation st) (last_weather_check st) (next_alarm st)
    (location_altitude st) (time_zone_offset st) (master_number st) s
    (unit_type st) (shadow_topic st) (twilio_topic st) (log st).

Definition set_unit_type (s : string) (st : Station) : Station :=
  mkStation (last_observation st) (last_weather_check st) (next_alarm st)
    (location_altitude st) (time_zone_offset st) (master_number st)
    (twilio_device_number st) s (shadow_topic st) (twilio_topic st) (log st).

Definition set_log (l : list Event) (st : Station) : Station :=
  mkStation (last_observation st) (last_weather_check st) (next_alarm st)
    (location_altitude st) (time_zone_offset st) (master_number st)
    (twilio_device_number st) (unit_type st) (shadow_topic st)
    (twilio_topic st) l.

(** ** The monad of member functions

    A member function maps the object to a result and the updated object,
    or to [None] when it leaves defined behaviour (the day table indexed
    out of its bounds). *)

Definition M (A : Type) : Type := Station -> option (A * Station).

Definition ret {A : Type} (a : A) : M A := fun st => Some (a, st).

Definition bind {A B : Type} (m : M A) (k : A -> M B) : M B :=
  fun st => match m st with
            | Some (a, st') => k a st'
            | None => None
            end.

Definition fault {A : Type} : M A := fun _ => None.

Definition get : M Station := fun st => Some (st, st).

Definition modify (f : Station -> Station) : M unit :=
  fun st => Some (tt, f st).

Definition lift {A : Type} (o : option A) : M A :=
  match o with Some a => ret a | None => fault end.

Declare Scope station_scope.
Delimit Scope station_scope with station.
Notation "x <- m ;; k" := (bind m (fun x => k))
  (at level 61, m at next level, right associativity) : station_scope.
Notation "m ;; k" := (bind m (fun _ => k))
  (at level 61, right associativity) : station_scope.
Local Open Scope station_scope.

(** A call on a collaborator. *)
Definition emit (e : Event) : M unit :=
  modify (fun st => set_log (log st ++ [e]) st).

Definition print_to_serial (a : SerialArg) : M unit := emit (Serial a).

(** ** The platform and the inputs *)

(** Functions of the C library and a constant the header declares
    [extern]. *)
Record Platform : Type := mkPlatform {
  (** [pow(x, y)] on doubles *)
  c_pow : spec_float -> spec_float -> spec_float;
  (** [round(x)], its result read as a double *)
  c_round : spec_float -> spec_float;
  (** [dtostrf(val, width, prec, buf)]: the text left in [buf]; the
      9-byte buffers of the report are taken to hold it *)
  dtostrf : spec_float -> Z -> Z -> string;
  (** what [snprintf] prints for the directive [% H] *)
  printf_bad_directive : string;
  (** [extern const int maxMQTTpackageSize] *)
  maxMQTTpackageSize : Z;
  (** the text [root.printTo(buffer, size)] leaves in [buffer], of [size]
      bytes, for a tree the program builds in a [StaticJsonBuffer] of the
      capacity [size]: what fits of the tree, cut to the buffer *)
  json_printTo : Json -> Z -> string
}.

(** What the sensors and the NTP client deliver during one call of
    [make_observation]. *)
Record Sample : Type := mkSample {
  bmp_pressure    : spec_float;  (* event.pressure after bmp.getEvent *)
  dht_humidity    : spec_float;  (* dht.readHumidity() *)
  dht_temperature : spec_float;  (* dht.readTemperature() *)
  bmp_temperature : spec_float;  (* bmp.getTemperature *)
  ntp_day         : Z;           (* timeClient.getDay(), int *)
  ntp_hours       : Z;           (* timeClient.getHours(), int *)
  ntp_minutes     : Z;           (* timeClient.getMinutes(), int *)
  ntp_seconds     : Z;           (* timeClient.getSeconds(), int *)
  ntp_epoch       : Z            (* timeClient.getEpochTime(), unsigned long *)
}.

(** What the environment delivers during one call of [yield]. *)
Record Tick : Type := mkTick {
  tick_millis       : Z;         (* millis() in the test *)
  tick_millis_again : Z;         (* millis() stored in last_weather_check *)
  tick_heap_before  : Z;         (* ESP.getFreeHeap() *)
  tick_heap_after   : Z;
  tick_sample       : Sample;
  tick_time         : string     (* timeClient.getFormattedTime() *)
}.

(** [sensor_t] as filled by [bmp.getSensor]. *)
Record SensorDetails : Type := mkSensorDetails {
  sensor_name       : string;
  sensor_version    : Z;
  sensor_sensor_id  : Z;
  sensor_max_value  : spec_float;
  sensor_min_value  : spec_float;
  sensor_resolution : spec_float
}.

Record CtorArgs : Type := mkCtorArgs {
  ntp_server              : string;
  dht_pin                 : Z;
  dht_type                : Z;
  time_zone_offset_in     : Z;
  altitude_in             : Z;
  next_alarm_in           : Z;
  master_device_number_in : string;
  twilio_device_number_in : string;
  unit_type_in            : string;
  twilio_topic_in         : string;
  shadow_topic_in         : string
}.

(** What the environment delivers while the constructor runs. *)
Record Boot : Type := mkBoot {
  boot_bmp_begin : bool;         (* bmp.begin() *)
  boot_sensor    : SensorDetails;
  boot_millis    : Z;
  boot_sample    : Sample;
  boot_time      : string
}.

Definition ADAFRUIT_BMP_CONSTANT : Z := 10180.

Definition LF : string := String (ascii_of_nat 10) EmptyString.
Definition CRLF : string :=
  String (ascii_of_nat 13) (String (ascii_of_nat 10) EmptyString).

(** The format of the weather report. *)
Definition REPORT_FORMAT : string :=
  Eval vm_compute in
    ("%sConditions as of %s %i:%i:%i" ++ LF ++ "%s *%s" ++ LF ++ "%s "
     ++ "% Humidity" ++ LF ++ "%s hPc (%s %s Hg)" ++ LF)%string.

Definition DAY_NAMES : list string :=
  ["Sun."; "Mon."; "Tue."; "Wed."; "Thu."; "Fri."; "Sat."].

(** The NTP library reports days as an integer, with 0 representing
    Sunday.  An index outside the table has no defined result. *)
Definition int_to_day (int_day : Z) : option string :=
  if int_day <? 0 then None else nth_error DAY_NAMES (Z.to_nat int_day).

Definition set_rang (b : bool) (st : Station) : Station :=
  set_next_alarm (mkAlarm (timestamp (next_alarm st)) b) st.

Definition set_timestamp (t : Z) (st : Station) : Station :=
  set_next_alarm (mkAlarm t (rang (next_alarm st))) st.

(** The document of the device shadow the program asks for: one object
    under [state] and the member [kind] ("reported" or "desired"). *)
Definition shadow_document (kind : string) (alarm : Z) (units : string)
    (alt tz : Z) (t_num m_num : string) : Json :=
  JObj [("state",
         JObj [(kind,
                JObj [("alarm", JInt alarm);
                      ("units", JStr units);
                      ("alt", JInt alt);
                      ("tz", JInt tz);
                      ("t_num", JStr t_num);
                      ("m_num", JStr m_num)])])].

(** Member lookup in a JSON object. *)
Fixpoint assoc (key : string) (members : list (string * Json)) : option Json :=
  match members with
  | [] => None
  | (k, v) :: rest => if String.eqb k key then Some v else assoc key rest
  end.

Definition member (key : string) (j : Json) : option Json :=
  match j with
  | JObj members => assoc key members
  | _ => None
  end.

(** The value at [state.<kind>.<field>] of a shadow document. *)
Definition shadow_field (kind field : string) (j : Json) : option Json :=
  match member "state" j with
  | Some s => match member kind s with
              | Some d => member field d
              | None => None
              end
  | None => None
  end.

(** The tree [report_shadow_state] builds from the fields of the station. *)
Definition reported_document (st : Station) : Json :=
  shadow_document "reported"
    (timestamp (next_alarm st)) (unit_type st)
    (location_altitude st) (time_zone_offset st)
    (c_str (twilio_device_number st)) (c_str (master_number st)).

(** The tree [update_shadow_state] builds from its arguments. *)
Definition desired_document (new_alarm : Z) (new_units : string)
    (new_alt new_tz : Z) (new_tnum new_mnum : string) : Json :=
  shadow_document "desired" new_alarm (c_str new_units) new_alt new_tz
    (c_str new_tnum) (c_str new_mnum).

(** The locals of [get_weather_report] before the report is formatted. *)
Record ReportLocals : Type := mkReportLocals {
  r_slvl_press    : spec_float;
  r_temperature   : string;
  r_humidity      : string;
  r_pressure      : string;
  r_pressure_conv : string;
  r_f_or_c        : string;
  r_in_or_mm      : string
}.

Section Engine.

Context (P : Platform).

(** *** Unit conversions *)

Definition _celsius_to_fahrenheit (celsius : spec_float) : spec_float :=
  F32.div
    (F32.of_f64
       (c_round P
          (F64.of_f32
             (F32.add
                (F32.mul
                   (F32.div (F32.mul celsius (F32.of_Z 9)) (F32.of_Z 5))
                   (F32.of_Z 1000))
                (F32.of_Z 32000)))))
    (F32.of_Z 1000).

Definition _hpa_to_in_mercury (hpa : spec_float) : spec_float :=
  F32.div
    (F32.of_f64
       (c_round P
          (F64.mul (F64.mul HPA_TO_IN_MERCURY (F64.of_f32 hpa))
             (F64.of_Z 1000))))
    (F32.of_Z 1000).

Definition _in_to_mm (inches : spec_float) : spec_float :=
  F32.div
    (F32.of_f64
       (c_round P
          (F64.mul (F64.mul MM_PER_INCH (F64.of_f32 inches))
             (F64.of_Z 1000))))
    (F32.of_Z 1000).

(** Station pressure to sea-level pressure.  The function reads the
    member [location_altitude]; its parameter [altitude] is not used. *)
Definition _hpa_to_sea_level (st : Station)
    (celsius hpa : spec_float) (altitude : Z) : spec_float :=
  let kelvin := F32.of_f64 (F64.add KELVIN_OFFSET (F64.of_f32 celsius)) in
  let scale_height :=
    F32.of_f64
      (F64.div
         (F64.mul ATM_JOULES_PER_KILOGRAM_KELVIN (F64.of_f32 kelvin))
         GRAVITATIONAL_ACCELERATION) in
  let adjusted_pressure :=
    F32.mul hpa
      (F32.of_f64
         (c_pow P E_CONSTANT
            (F64.of_f32
               (F32.div (F32.of_Z (location_altitude st)) scale_height)))) in
  F32.div
    (F32.of_f64
       (c_round P (F64.of_f32 (F32.mul adjusted_pressure (F32.of_Z 1000)))))
    (F32.of_Z 1000).

(** *** The weather report *)

Definition report_locals (st : Station) : ReportLocals :=
  let o := last_observation st in
  let slvl_press :=
    _hpa_to_sea_level st (humidity o) (pressure o) (location_altitude st) in
  let humidity_s := dtostrf P (F64.of_f32 (humidity o)) 8 2 in
  let pressure_s := dtostrf P (F64.of_f32 slvl_press) 8 2 in
  if String.eqb (unit_type st) "imperial" then
    mkReportLocals slvl_press
      (dtostrf P (F64.of_f32 (_celsius_to_fahrenheit (temperature o))) 8 2)
      humidity_s
      pressure_s
      (dtostrf P (F64.of_f32 (_hpa_to_in_mercury slvl_press)) 8 2)
      "F" "in"
  else
    mkReportLocals slvl_press
      (dtostrf P (F64.of_f32 (temperature o)) 8 2)
      humidity_s
      pressure_s
      (dtostrf P
         (F64.of_f32 (_in_to_mm (_hpa_to_in_mercury slvl_press))) 8 2)
      "C" "mm".

(** The string [get_weather_report] builds from the object: the report
    formatted into the 161-byte buffer, or nothing when the day index is
    outside the table of names. *)
Definition weather_report_text (intro : string) (st : Station)
  : option string :=
  let o := last_observation st in
  let r := report_locals st in
  match int_to_day (day o) with
  | Some day_name =>
      snprintf (printf_bad_directive P) 160 REPORT_FORMAT
        [PfStr intro; PfStr day_name;
         PfInt (hour o); PfInt (minute o); PfInt (second o);
         PfStr (r_temperature r); PfStr (r_f_or_c r);
         PfStr (r_humidity r);
         PfStr (r_pressure r); PfStr (r_pressure_conv r);
         PfStr (r_in_or_mm r)]
  | None => None
  end.

(** Craft a string containing the current conditions. *)
Definition get_weather_report (intro : string) : M string :=
  st <- get ;;
  lift (weather_report_text intro st).

(** Dump the observation to the serial console. *)
Definition print_observation (formatted_time : string) (obs : WObservation)
  : M unit :=
  st <- get ;;
  print_to_serial (SStr "Time is currently: ") ;;
  print_to_serial (SStr formatted_time) ;;
  print_to_serial (SStr "(") ;;
  print_to_serial (SInt (epoch obs)) ;;
  print_to_serial (SStr (")" ++ CRLF)) ;;
  print_to_serial (SStr "Timestamp: ") ;;
  print_to_serial (SInt (day obs)) ;;
  print_to_serial (SStr " ") ;;
  print_to_serial (SInt (hour obs)) ;;
  print_to_serial (SStr ":") ;;
  print_to_serial (SInt (minute obs)) ;;
  print_to_serial (SStr ":") ;;
  print_to_serial (SInt (second obs)) ;;
  print_to_serial (SStr " Pressure: ") ;;
  print_to_serial (SFloat (pressure obs)) ;;
  print_to_serial (SStr " hPa at sea level, ") ;;
  print_to_serial
    (SFloat
       (_hpa_to_in_mercury
          (_hpa_to_sea_level st (temperature obs) (pressure obs)
             (location_altitude st)))) ;;
  print_to_serial (SStr " inhg at sea level, ") ;;
  print_to_serial (SStr "Temperature: ") ;;
  print_to_serial (SFloat (temperature obs)) ;;
  print_to_serial (SStr " *C, ") ;;
  print_to_serial (SFloat (_celsius_to_fahrenheit (temperature obs))) ;;
  print_to_serial (SStr " *F, ") ;;
  print_to_serial (SStr "Humidity: ") ;;
  print_to_serial (SFloat (humidity obs)) ;;
  print_to_serial (SStr " %") ;;
  print_to_serial (SStr CRLF).

(** *** The device shadow *)

(** Report the current setup. *)
Definition report_shadow_state (topic : string) : M unit :=
  st <- get ;;
  let buffer :=
    json_printTo P (reported_document st) (maxMQTTpackageSize P) in
  print_to_serial (SStr buffer) ;;
  emit (Publish topic buffer).

(** Set a desired shadow state. *)
Definition update_shadow_state (topic : string) (new_alarm : Z)
    (new_units : string) (new_alt new_tz : Z) (new_tnum new_mnum : string)
  : M unit :=
  let buffer :=
    json_printTo P
      (desired_document new_alarm new_units new_alt new_tz new_tnum new_mnum)
      (maxMQTTpackageSize P) in
  print_to_serial (SStr buffer) ;;
  emit (Publish (c_str topic) buffer).

(** *** Preferences *)

Definition update_alarm (alarm_in : Z) : M unit :=
  st <- get ;;
  if timestamp (next_alarm st) =? alarm_in then
    (* Don't reset it, forget it. *)
    ret tt
  else
    (if (epoch (last_observation st) >? alarm_in) || (alarm_in =? 0)
     then modify (set_rang true)     (* in the past, or alarms off *)
     else modify (set_rang false)) ;; (* new, future alarm *)
    modify (set_timestamp alarm_in) ;;
    print_to_serial (SStr "Alarm updated to: ") ;;
    st' <- get ;;
    print_to_serial (SInt (timestamp (next_alarm st'))) ;;
    print_to_serial (SStr CRLF).

Definition update_units (units_in : string) : M unit :=
  if String.eqb units_in "imperial" || String.eqb units_in "metric" then
    modify (set_unit_type units_in) ;;
    print_to_serial (SStr "Units updated to: ") ;;
    st <- get ;;
    print_to_serial (SStr (unit_type st)) ;;
    print_to_serial (SStr CRLF)
  else
    print_to_serial
      (SStr ("Unit type must be 'imperial' or 'metric'" ++ CRLF)).

Definition update_alt (alt_in : Z) : M unit :=
  modify (set_location_altitude alt_in) ;;
  print_to_serial (SStr "Altitude updated to: ") ;;
  st <- get ;;
  print_to_serial (SInt (location_altitude st)) ;;
  print_to_serial (SStr CRLF).

Definition update_tz (tz_in : Z) : M unit :=
  modify (set_time_zone_offset tz_in) ;;
  print_to_serial (SStr "Timezone offset set to: ") ;;
  st <- get ;;
  print_to_serial (SInt (time_zone_offset st)) ;;
  print_to_serial (SStr CRLF) ;;
  emit (NtpSetTimeOffset (I32.mul (time_zone_offset st) 60)) ;;
  emit NtpForceUpdate.

Definition update_tnum (tnum_in : string) : M unit :=
  modify (set_twilio_device_number tnum_in) ;;
  print_to_serial (SStr "Device number updated to: ") ;;
  st <- get ;;
  print_to_serial (SStr (twilio_device_number st)) ;;
  print_to_serial (SStr CRLF).

Definition update_mnum (mnum_in : string) : M unit :=
  modify (set_master_number mnum_in) ;;
  print_to_serial (SStr "Master number updated to: ") ;;
  st <- get ;;
  print_to_serial (SStr (master_number st)) ;;
  print_to_serial (SStr CRLF).

(** *** The alarm and the sampler *)

(** Handle passing the alarm epoch time. *)
Definition _handle_alarm : M unit :=
  st <- get ;;
  (* Attempt to set the alarm one day out *)
  update_shadow_state
    (shadow_topic st)
    (I32.add (timestamp (next_alarm st)) 86400)
    (unit_type st)
    (location_altitude st)
    (time_zone_offset st)
    (twilio_device_number st)
    (master_number st) ;;
  (* Alarm rang *)
  modify (set_rang true) ;;
  (* Text the master number the current conditions *)
  weather_string <- get_weather_report ("Daily Report!" ++ LF) ;;
  emit (SendTwilio (c_str (twilio_topic st)) (master_number st)
          (twilio_device_number st) weather_string EmptyString).

(** The test of [make_observation] on the readings. *)
Definition sensors_ok (s : Sample) : bool :=
  F32.to_bool (bmp_pressure s)
  && negb (F32.isnan (dht_humidity s) || F32.isnan (dht_temperature s)).

(** The observation written by a successful sample. *)
Definition observed (s : Sample) : WObservation :=
  let avg_temperature :=
    F32.div (F32.add (dht_temperature s) (bmp_temperature s)) (F32.of_Z 2) in
  mkObs avg_temperature (dht_humidity s) (bmp_pressure s)
    (U8.wrap (ntp_day s)) (U8.wrap (ntp_hours s))
    (U8.wrap (ntp_minutes s)) (U8.wrap (ntp_seconds s))
    (I32.wrap (ntp_epoch s)).

(** Read from the sensors and update the current conditions.  Both calls
    of the program pass the member [last_observation] as [obs]; the
    reference is modelled bound to it. *)
Definition make_observation (s : Sample) : M unit :=
  if sensors_ok s then
    modify (set_last_observation (observed s)) ;;
    st <- get ;;
    let obs := last_observation st in
    (* Check if we just passed an unrung alarm, but only in the last 2
       weather samples. *)
    if negb (rang (next_alarm st)) then
      if (epoch obs >? timestamp (next_alarm st))
         && (I32.add (timestamp (next_alarm st)) ALARM_WINDOW >? epoch obs)
      then
        print_to_serial (SStr ("We just hit an alarm!" ++ CRLF)) ;;
        _handle_alarm
      else ret tt
    else ret tt
  else
    print_to_serial (SStr "Sensor errors!  Please check your board.") ;;
    print_to_serial (SStr CRLF).

(** Heartbeat: update NTP, make an observation when it is due. *)
Definition yield (t : Tick) : M unit :=
  emit NtpUpdate ;;
  st <- get ;;
  if tick_millis t
     >? U64.add (last_weather_check st) RECHECK_WEATHER_INTERVAL
  then
    print_to_serial (SStr "BEFORE Remaining Heap Size: ") ;;
    print_to_serial (SInt (tick_heap_before t)) ;;
    print_to_serial (SStr CRLF) ;;
    modify (set_last_weather_check (tick_millis_again t)) ;;
    make_observation (tick_sample t) ;;
    st' <- get ;;
    print_observation (tick_time t) (last_observation st') ;;
    print_to_serial (SStr "AFTER Remaining Heap Size: ") ;;
    print_to_serial (SInt (tick_heap_after t)) ;;
    print_to_serial (SStr CRLF)
  else ret tt.

(** *** Construction *)

Definition _display_bmp_sensor_details (d : SensorDetails) : M unit :=
  let rule := "------------------------------------" ++ CRLF in
  print_to_serial (SStr rule) ;;
  print_to_serial (SStr "BMP Sensor:       ") ;;
  print_to_serial (SStr (sensor_name d)) ;;
  print_to_serial (SStr CRLF) ;;
  print_to_serial (SStr "Driver Ver:   ") ;;
  print_to_serial (SInt (sensor_version d)) ;;
  print_to_serial (SStr CRLF) ;;
  print_to_serial (SStr "Unique ID:    ") ;;
  print_to_serial (SInt (sensor_sensor_id d)) ;;
  print_to_serial (SStr CRLF) ;;
  print_to_serial (SStr "Max Value:    ") ;;
  print_to_serial (SFloat (sensor_max_value d)) ;;
  print_to_serial (SStr " hPa") ;;
  print_to_serial (SStr CRLF) ;;
  print_to_serial (SStr "Min Value:    ") ;;
  print_to_serial (SFloat (sensor_min_value d)) ;;
  print_to_serial (SStr " hPa") ;;
  print_to_serial (SStr CRLF) ;;
  print_to_serial (SStr "Resolution:   ") ;;
  print_to_serial (SFloat (sensor_resolution d)) ;;
  print_to_serial (SStr " hPa") ;;
  print_to_serial (SStr CRLF) ;;
  print_to_serial (SStr rule) ;;
  emit (Delay 500).

(** The object after the member initialisers: the observation and the
    alarm, which the body assigns before any use, hold the values the
    body gives them. *)
Definition initialised (a : CtorArgs) : Station :=
  mkStation
    (mkObs F32.zero F32.zero F32.zero 0 0 0 0 0)
    0
    (mkAlarm 0 true)
    (altitude_in a)
    (time_zone_offset_in a)
    (c_str (master_device_number_in a))
    (c_str (twilio_device_number_in a))
    (c_str (unit_type_in a))
    (c_str (shadow_topic_in a))
    (c_str (twilio_topic_in a))
    [NtpInit (c_str (ntp_server a))
       (I32.mul (time_zone_offset_in a) 60) UPDATE_NTP_INTERVAL;
     DhtInit (dht_pin a) (dht_type a);
     BmpInit ADAFRUIT_BMP_CONSTANT].

(** The body of the constructor. *)
Definition constructor_body (a : CtorArgs) (b : Boot) : M unit :=
  modify (set_last_observation (mkObs F32.zero F32.zero F32.zero 0 0 0 0 0)) ;;
  emit DhtBegin ;;
  (if negb (boot_bmp_begin b) then
     print_to_serial
       (SStr ("Check your I2C Wiring, we can't access"
              ++ "the Barometric Pressure Sensor.")) ;;
     emit (Delay 1000)
   else ret tt) ;;
  _display_bmp_sensor_details (boot_sensor b) ;;
  (* Start NTP time sync *)
  emit NtpBegin ;;
  emit NtpUpdate ;;
  (* First weather check *)
  modify (set_last_weather_check (boot_millis b)) ;;
  (* Bootstrap the alarm *)
  modify (set_next_alarm (mkAlarm 0 true)) ;;
  update_alarm (next_alarm_in a) ;;
  (* Make first weather observation (which may ring the alarm) *)
  make_observation (boot_sample b) ;;
  st <- get ;;
  print_observation (boot_time b) (last_observation st).

Definition TwilioWeatherStation (a : CtorArgs) (b : Boot) : option Station :=
  option_map snd (constructor_body a b (initialised a)).

(** *** Reachable states *)

(** The public member functions, with their arguments and what the
    environment delivers during the call. *)
Inductive Call : Type :=
| CallYield (t : Tick)
| CallGetWeatherReport (intro : string)
| CallMakeObservation (s : Sample)
| CallPrintObservation (formatted_time : string) (obs : WObservation)
| CallUpdateAlarm (alarm_in : Z)
| CallUpdateUnits (units_in : string)
| CallUpdateAlt (alt_in : Z)
| CallUpdateTz (tz_in : Z)
| CallUpdateTnum (tnum_in : string)
| CallUpdateMnum (mnum_in : string)
| CallReportShadowState (topic : string)
| CallUpdateShadowState (topic : string) (new_alarm : Z)
    (new_units : string) (new_alt new_tz : Z) (new_tnum new_mnum : string).

Definition perform (c : Call) : M unit :=
  match c with
  | CallYield t => yield t
  | CallGetWeatherReport intro => _ <- get_weather_report intro ;; ret tt
  | CallMakeObservation s => make_observation s
  | CallPrintObservation ft obs => print_observation ft obs
  | CallUpdateAlarm z => update_alarm z
  | CallUpdateUnits s => update_units s
  | CallUpdateAlt z => update_alt z
  | CallUpdateTz z => update_tz z
  | CallUpdateTnum s => update_tnum s
  | CallUpdateMnum s => update_mnum s
  | CallReportShadowState topic => report_shadow_state topic
  | CallUpdateShadowState topic al un alt tz tn mn =>
      update_shadow_state topic al un alt tz tn mn
  end.

(** The states of a station: what the constructor returns, and what a
    public member function makes of such a state. *)
Inductive reachable : Station -> Prop :=
| reachable_new (a : CtorArgs) (b : Boot) (st : Station) :
    TwilioWeatherStation a b = Some st -> reachable st
| reachable_call (c : Call) (st st' : Station) :
    reachable st -> perform c st = Some (tt, st') -> reachable st'.

(** A run of samples, each through [make_observation]. *)
Fixpoint run_samples (l : list Sample) : M unit :=
  match l with
  | [] => ret tt
  | s :: l' => make_observation s ;; run_samples l'
  end.

End Engine.

(** ** Observations on states and logs *)

Definition is_send (e : Event) : bool :=
  match e with SendTwilio _ _ _ _ _ => true | _ => false end.

Definition is_publish (e : Event) : bool :=
  match e with Publish _ _ => true | _ => false end.

(** The number of outbound messages and of publications in a log. *)
Definition sends (l : list Event) : nat := length (filter is_send l).
Definition publishes (l : list Event) : nat := length (filter is_publish l).

(** The states of the alarm. *)
Definition Disabled (a : Alarm) : Prop := timestamp a = 0.
Definition Armed (a : Alarm) : Prop := timestamp a > 0 /\ rang a = false.
Definition Rung (a : Alarm) : Prop := rang a = true.

(** The state left by the failure branch of [make_observation]: the
    diagnostic on the serial console and nothing else. *)
Definition sensor_fault_outcome (st : Station) : Station :=
  set_log
    (log st ++ [Serial (SStr "Sensor errors!  Please check your board.");
                Serial (SStr CRLF)])
    st.

(** The state left by [_handle_alarm] from [st] when the report is [w]. *)
Definition fired (P : Platform) (st : Station) (w : string) : Station :=
  let buffer :=
    json_printTo P
      (desired_document
         (I32.add (timestamp (next_alarm st)) 86400)
         (unit_type st) (location_altitude st) (time_zone_offset st)
         (twilio_device_number st) (master_number st))
      (maxMQTTpackageSize P) in
  set_log
    (log st ++ [Serial (SStr buffer);
                Publish (c_str (shadow_topic st)) buffer;
                SendTwilio (c_str (twilio_topic st)) (master_number st)
                  (twilio_device_number st) w EmptyString])
    (set_rang true st).

(** The test [make_observation] makes on the alarm once the observation of
    epoch [e] is stored: the alarm is unrung, passed, and passed by less
    than the window. *)
Definition rings (a : Alarm) (e : Z) : bool :=
  negb (rang a)
  && ((e >? timestamp a) && (I32.add (timestamp a) ALARM_WINDOW >? e)).

(** The state in which [_handle_alarm] is entered by a sample that rings. *)
Definition ringing (s : Sample) (st : Station) : Station :=
  set_log (log st ++ [Serial (SStr ("We just hit an alarm!" ++ CRLF))])
    (set_last_observation (mkObs
       (F32.div (F32.add (dht_temperature s) (bmp_temperature s)) (F32.of_Z 2))
       (dht_humidity s) (bmp_pressure s)
       (U8.wrap (ntp_day s)) (U8.wrap (ntp_hours s))
       (U8.wrap (ntp_minutes s)) (U8.wrap (ntp_seconds s))
       (I32.wrap (ntp_epoch s))) st).

(** The state left by [update_alarm] when the timestamp changes. *)
Definition alarm_updated (alarm_in : Z) (st : Station) : Station :=
  set_log
    (log st ++ [Serial (SStr "Alarm updated to: ");
                Serial (SInt alarm_in);
                Serial (SStr CRLF)])
    (set_next_alarm
       (mkAlarm alarm_in
          ((epoch (last_observation st) >? alarm_in) || (alarm_in =? 0)))
       st).

(** What a member function hands back to its caller. *)
Definition returned {A : Type} (r : option (A * Station)) : option A :=
  option_map fst r.

(** The states left by [update_units]: the input refused, and the input
    taken. *)
Definition units_refused (st : Station) : Station :=
  set_log
    (log st ++ [Serial (SStr ("Unit type must be 'imperial' or 'metric'"
                               ++ CRLF))])
    st.

Definition units_taken (units_in : string) (st : Station) : Station :=
  set_log
    (log st ++ [Serial (SStr "Units updated to: ");
                Serial (SStr units_in);
                Serial (SStr CRLF)])
    (set_unit_type units_in st).

(** The alarm is rung whenever it is disabled. *)
Definition alarm_inv (st : Station) : Prop :=
  timestamp (next_alarm st) = 0 -> rang (next_alarm st) = true.

(** [m] keeps the property [I] of the object. *)
Definition preserves {A : Type} (I : Station -> Prop) (m : M A) : Prop :=
  forall (st : Station) (a : A) (st' : Station),
    I st -> m st = Some (a, st') -> I st'.

(** From a state with the property [I], [m] returns, in a state with the
    property [I]. *)
Definition always {A : Type} (I : Station -> Prop) (m : M A) : Prop :=
  forall st : Station,
    I st -> exists (a : A) (st' : Station), m st = Some (a, st') /\ I st'.

(** [I] does not depend on the log beyond its counts of messages and
    publications. *)
Definition ignores_serial (I : Station -> Prop) : Prop :=
  forall (st : Station) (e : Event),
    is_send e = false -> is_publish e = false ->
    I st -> I (set_log (log st ++ [e]) st).

(** The preferences of the station. *)
Definition configuration (st : Station)
  : Z * Z * string * string * string * string * string :=
  (location_altitude st, time_zone_offset st, master_number st,
   twilio_device_number st, unit_type st, shadow_topic st, twilio_topic st).

(** The two unit systems [update_units] accepts. *)
Definition recognised_units (u : string) : Prop :=
  u = "imperial" \/ u = "metric".

(** The observation the constructor starts from. *)
Definition blank_observation : WObservation :=
  mkObs F32.zero F32.zero F32.zero 0 0 0 0 0.

(** A string without a NUL byte. *)
Definition nul_free (s : string) : Prop := c_str s = s.

(** From a state with the property [Pre], [m] returns, in a state with the
    property [Post]. *)
Definition hoare {A : Type} (Pre : Station -> Prop) (m : M A)
    (Post : Station -> Prop) : Prop :=
  forall st : Station,
    Pre st -> exists (a : A) (st' : Station), m st = Some (a, st') /\ Post st'.

(** The payload of the last publication in a log. *)
Fixpoint last_published (l : list Event) : option string :=
  match l with
  | [] => None
  | e :: rest =>
      match last_published rest with
      | Some p => Some p
      | None => match e with Publish _ p => Some p | _ => None end
      end
  end.

(** The state in which a due heartbeat calls [make_observation]. *)
Definition sampling (t : Tick) (st : Station) : Station :=
  set_last_weather_check (tick_millis_again t)
    (set_log
       (log st ++ [NtpUpdate;
                   Serial (SStr "BEFORE Remaining Heap Size: ");
                   Serial (SInt (tick_heap_before t));
                   Serial (SStr CRLF)])
       st).

(** What a due heartbeat does after the sample. *)
Definition after_sample (P : Platform) (t : Tick) : M unit :=
  st' <- get ;;
  print_observation P (tick_time t) (last_observation st') ;;
  print_to_serial (SStr "AFTER Remaining Heap Size: ") ;;
  print_to_serial (SInt (tick_heap_after t)) ;;
  print_to_serial (SStr CRLF).

(** Two states that differ at most in the log and in the time of the last
    weather check. *)
Definition same_station (st st' : Station) : Prop :=
  last_observation st' = last_observation st
  /\ next_alarm st' = next_alarm st
  /\ configuration st' = configuration st.

(** The states left by the setters of the altitude, the time zone and the
    two numbers. *)
Definition alt_updated (alt_in : Z) (st : Station) : Station :=
  set_log
    (log st ++ [Serial (SStr "Altitude updated to: ");
                Serial (SInt alt_in);
                Serial (SStr CRLF)])
    (set_location_altitude alt_in st).

Definition tz_updated (tz_in : Z) (st : Station) : Station :=
  set_log
    (log st ++ [Serial (SStr "Timezone offset set to: ");
                Serial (SInt tz_in);
                Serial (SStr CRLF);
                NtpSetTimeOffset (I32.mul tz_in 60);
                NtpForceUpdate])
    (set_time_zone_offset tz_in st).

Definition tnum_updated (tnum_in : string) (st : Station) : Station :=
  set_log
    (log st ++ [Serial (SStr "Device number updated to: ");
                Serial (SStr tnum_in);
                Serial (SStr CRLF)])
    (set_twilio_device_number tnum_in st).

Definition mnum_updated (mnum_in : string) (st : Station) : Station :=
  set_log
    (log st ++ [Serial (SStr "Master number updated to: ");
                Serial (SStr mnum_in);
                Serial (SStr CRLF)])
    (set_master_number mnum_in st).

(** The text [report_shadow_state] prints and publishes. *)
Definition reported_buffer (P : Platform) (st : Station) : string :=
  json_printTo P (reported_document st) (maxMQTTpackageSize P).

(** [report_shadow_state] called after [m] builds the tree [doc] from the
    fields [m] leaves, and publishes what [printTo] leaves of it. *)
Definition reports (P : Platform) (topic : string) (m : M unit)
    (st : Station) (doc : Json) : Prop :=
  exists st1 st2,
    m st = Some (tt, st1)
    /\ doc = reported_document st1
    /\ report_shadow_state P topic st1 = Some (tt, st2)
    /\ last_published (log st2)
       = Some (json_printTo P doc (maxMQTTpackageSize P)).

(** A run of heartbeats. *)
Fixpoint run_ticks (P : Platform) (l : list Tick) : M unit :=
  match l with
  | [] => ret tt
  | t :: l' => yield P t ;; run_ticks P l'
  end.

(** The calls that take a sample, and the calls that may publish. *)
Definition samples (c : Call) : bool :=
  match c with
  | CallYield _ | CallMakeObservation _ => true
  | _ => false
  end.

Definition publishing (c : Call) : bool :=
  match c with
  | CallYield _ | CallMakeObservation _
  | CallReportShadowState _ | CallUpdateShadowState _ _ _ _ _ _ _ => true
  | _ => false
  end.

(** A run of public calls. *)
Fixpoint run_calls (P : Platform) (l : list Call) : M unit :=
  match l with
  | [] => ret tt
  | c :: l' => perform P c ;; run_calls P l'
  end.

(** The preferences the constructor takes from its arguments. *)
Definition configured (a : CtorArgs)
  : Z * Z * string * string * string * string * string :=
  (altitude_in a, time_zone_offset_in a,
   c_str (master_device_number_in a), c_str (twilio_device_number_in a),
   c_str (unit_type_in a), c_str (shadow_topic_in a),
   c_str (twilio_topic_in a)).

(** The station before the services are started, and the station when the
    constructor makes its first observation: nothing observed, nothing
    sent, and the alarm as [update_alarm] leaves it at epoch 0. *)
Definition starting (a : CtorArgs) (st : Station) : Prop :=
  last_observation st = blank_observation
  /\ configuration st = configured a
  /\ sends (log st) = 0%nat
  /\ publishes (log st) = 0%nat.

Definition booting (a : CtorArgs) (b : Boot) (st : Station) : Prop :=
  starting a st
  /\ last_weather_check st = boot_millis b
  /\ next_alarm st
     = mkAlarm (next_alarm_in a)
         ((0 >? next_alarm_in a) || (next_alarm_in a =? 0)).

(** ** A platform and inputs for concrete runs *)

Module Bench.

(** Compact JSON, the strings quoted without escapes, cut to the buffer. *)
Definition quoted (s : string) : string :=
  String (ascii_of_nat 34) (s ++ String (ascii_of_nat 34) EmptyString).

Fixpoint json_text (j : Json) : string :=
  match j with
  | JInt z => decimal z
  | JStr s => quoted s
  | JObj members =>
      ("{"
       ++ (fix members_text (l : list (string * Json)) : string :=
             match l with
             | [] => EmptyString
             | (k, v) :: rest =>
                 (quoted k ++ ":" ++ json_text v
                  ++ match rest with
                     | [] => EmptyString
                     | _ => "," ++ members_text rest
                     end)%string
             end) members
       ++ "}")%string
  end.

Definition printTo (j : Json) (size : Z) : string :=
  take (Z.to_nat (size - 1)) (json_text j).

Definition platform : Platform :=
  mkPlatform
    (fun _ _ => F64.of_Z 1)
    (fun x => x)
    (fun _ _ _ => "   20.00")
    "H"
    512
    printTo.

Definition f32 (z : Z) : spec_float := F32.of_Z z.

(** A good reading at epoch [e], a Tuesday at 07:30:00. *)
Definition sample_at (e : Z) : Sample :=
  mkSample (f32 1013) (f32 40) (f32 20) (f32 22) 2 7 30 0 e.

(** Readings with one defect each. *)
Definition sample_nan_pressure : Sample :=
  mkSample S754_nan (f32 40) (f32 20) (f32 22) 2 7 30 0 5000.
Definition sample_zero_pressure : Sample :=
  mkSample (S754_zero false) (f32 40) (f32 20) (f32 22) 2 7 30 0 5000.
Definition sample_nan_humidity : Sample :=
  mkSample (f32 1013) S754_nan (f32 20) (f32 22) 2 7 30 0 5000.

Definition observation_at (e : Z) : WObservation :=
  mkObs (f32 21) (f32 40) (f32 1013) 2 7 30 0 e.

(** A station whose last observation was made at [e], with the alarm
    [a]. *)
Definition station (e : Z) (a : Alarm) : Station :=
  mkStation (observation_at e) 0 a 120 (-480)
    "+15550001111" "+15550002222" "metric" "shadow/update" "twilio"
    [].

(** The station with its last observation at epoch 5000 and no alarm;
    at epoch 100 and no alarm; at epoch 5000 and armed for 6000. *)
Definition idle : Station := station 5000 (mkAlarm 0 true).
Definition early : Station := station 100 (mkAlarm 0 true).
Definition armed : Station := station 5000 (mkAlarm 6000 false).

(** The station armed for an epoch less than a day before the end of the
    [int32_t] range. *)
Definition armed_late : Station :=
  station 5000 (mkAlarm 2147400000 false).

Definition args : CtorArgs :=
  mkCtorArgs "time.nist.gov" 5 22 (-480) 120 0
    "+15550001111" "+15550002222" "metric" "twilio" "shadow/update".

Definition boot : Boot :=
  mkBoot true
    (mkSensorDetails "BMP085" 1 10180 (f32 1100) (f32 300) (f32 1))
    1000 (sample_at 5000) "07:30:00".

Definition tick (ms : Z) (s : Sample) : Tick :=
  mkTick ms ms 20000 20000 s "07:30:00".

(** An intro of 200 bytes. *)
Definition long_intro : string :=
  String.concat EmptyString (repeat "0123456789" 20).

(** The station the constructor returns, and that station with an alarm
    set for epoch 6000. *)
Definition booted : Station :=
  match TwilioWeatherStation platform args boot with
  | Some st => st
  | None => initialised args
  end.

Definition rearmed : Station :=
  match perform platform (CallUpdateAlarm 6000) booted with
  | Some (_, st) => st
  | None => booted
  end.

(** The armed station after the sample at epoch 6100. *)
Definition rung : Station :=
  match make_observation platform (sample_at 6100) armed with
  | Some (_, st) => st
  | None => armed
  end.

(** A station whose last weather check was 1000 ms before the end of the
    32-bit range of [millis()]. *)
Definition late : Station := set_last_weather_check (2 ^ 32 - 1000) idle.

(** Arguments with an alarm for epoch 4900. *)
Definition args_alarm : CtorArgs :=
  mkCtorArgs "time.nist.gov" 5 22 (-480) 120 4900
    "+15550001111" "+15550002222" "metric" "twilio" "shadow/update".

(** Arguments with a unit type that [update_units] would refuse, and the
    station they give. *)
Definition args_kelvin : CtorArgs :=
  mkCtorArgs "time.nist.gov" 5 22 (-480) 120 0
    "+15550001111" "+15550002222" "kelvin" "twilio" "shadow/update".

Definition booted_kelvin : Station :=
  match TwilioWeatherStation platform args_kelvin boot with
  | Some st => st
  | None => initialised args_kelvin
  end.

Definition refused_kelvin : Station :=
  match run_calls platform [CallUpdateUnits "bogus"] booted_kelvin with
  | Some (_, st) => st
  | None => booted_kelvin
  end.

(** The booted station after a refused and an accepted unit type. *)
Definition unit_calls : list Call :=
  [CallUpdateUnits "bogus"; CallUpdateUnits "imperial"].

Definition reunited : Station :=
  match run_calls platform unit_calls booted with
  | Some (_, st) => st
  | None => booted
  end.

End Bench.

(** * Proofs *)

(** ** Integers and strings *)

Lemma I32_wrap_id (z : Z) : I32.in_range z -> I32.wrap z = z.
Proof.
  unfold I32.in_range, I32.min_signed, I32.max_signed, I32.wrap. intros H.
  rewrite Z.mod_small; lia.
Qed.

Lemma I32_wrap_range (z : Z) : I32.in_range (I32.wrap z).
Proof.
  unfold I32.in_range, I32.min_signed, I32.max_signed, I32.wrap.
  pose proof (Z.mod_pos_bound (z + 2 ^ 31) (2 ^ 32) ltac:(lia)). lia.
Qed.

Lemma ALARM_WINDOW_value : ALARM_WINDOW = 360.
Proof. reflexivity. Qed.

Lemma length_take (n : nat) (s : string) : (String.length (take n s) <= n)%nat.
Proof.
  revert s. induction n as [|n IH]; intros [|c r]; simpl; try lia.
  specialize (IH r). lia.
Qed.

Lemma length_c_str (s : string) :
  (String.length (c_str s) <= String.length s)%nat.
Proof.
  induction s as [|c r IH]; simpl; [lia|].
  destruct (Ascii.eqb c Ascii.zero); simpl; lia.
Qed.

Lemma snprintf_length (bad : string) (n : Z) (fmt : string)
    (args : list PfArg) (out : string) :
  snprintf bad n fmt args = Some out ->
  (String.length out <= Z.to_nat (n - 1))%nat.
Proof.
  unfold snprintf.
  destruct (vformat bad fmt args) as [s|]; simpl; [|discriminate].
  intros [= <-].
  pose proof (length_c_str (take (Z.to_nat (n - 1)) s)).
  pose proof (length_take (Z.to_nat (n - 1)) s). lia.
Qed.

Lemma int_to_day_some (d : Z) :
  0 <= d < 7 -> exists name, int_to_day d = Some name.
Proof.
  intros H. unfold int_to_day.
  destruct (Z.ltb_spec d 0); [lia|].
  assert (Hd : d = 0 \/ d = 1 \/ d = 2 \/ d = 3 \/ d = 4 \/ d = 5 \/ d = 6)
    by lia.
  destruct Hd as [->|[->|[->|[->|[->|[->| ->]]]]]]; simpl; eauto.
Qed.

Lemma int_to_day_valid (d : Z) (name : string) :
  int_to_day d = Some name -> 0 <= d < 7.
Proof.
  unfold int_to_day. destruct (Z.ltb_spec d 0); [discriminate|].
  intros Hn.
  assert (Hl : (Z.to_nat d < length DAY_NAMES)%nat).
  { apply nth_error_Some. congruence. }
  simpl in Hl. lia.
Qed.

(** ** The weather report *)

Lemma vformat_report (bad : string) (intro day_name : string) (h m s : Z)
    (t fc hum p pc im : string) :
  exists out,
    vformat bad REPORT_FORMAT
      [PfStr intro; PfStr day_name; PfInt h; PfInt m; PfInt s;
       PfStr t; PfStr fc; PfStr hum; PfStr p; PfStr pc; PfStr im]
    = Some out.
Proof.
  eexists. unfold REPORT_FORMAT.
  cbn [vformat Ascii.eqb Bool.eqb option_map]. reflexivity.
Qed.

Section ReportFacts.

Context (P : Platform).

Lemma weather_report_text_some (intro : string) (st : Station) :
  0 <= day (last_observation st) < 7 ->
  exists w, weather_report_text P intro st = Some w.
Proof.
  intros Hd. unfold weather_report_text.
  destruct (int_to_day_some _ Hd) as [name ->].
  unfold snprintf.
  destruct (vformat_report (printf_bad_directive P) intro name
              (hour (last_observation st)) (minute (last_observation st))
              (second (last_observation st))
              (r_temperature (report_locals P st))
              (r_f_or_c (report_locals P st))
              (r_humidity (report_locals P st))
              (r_pressure (report_locals P st))
              (r_pressure_conv (report_locals P st))
              (r_in_or_mm (report_locals P st))) as [out ->].
  simpl. eauto.
Qed.

Lemma weather_report_text_length (intro : string) (st : Station) (w : string) :
  weather_report_text P intro st = Some w -> (String.length w <= 159)%nat.
Proof.
  unfold weather_report_text.
  destruct (int_to_day (day (last_observation st))); [|discriminate].
  intros H. apply snprintf_length in H. exact H.
Qed.

(** The report reads the observation, the unit system and the altitude,
    and nothing else of the object. *)
Lemma weather_report_text_frame (intro : string) (st st' : Station) :
  last_observation st' = last_observation st ->
  unit_type st' = unit_type st ->
  location_altitude st' = location_altitude st ->
  weather_report_text P intro st' = weather_report_text P intro st.
Proof.
  intros Ho Hu Ha.
  unfold weather_report_text, report_locals, _hpa_to_sea_level.
  rewrite Ho, Hu, Ha. reflexivity.
Qed.

Lemma get_weather_report_run (intro : string) (st : Station) :
  get_weather_report P intro st
  = option_map (fun w => (w, st)) (weather_report_text P intro st).
Proof.
  unfold get_weather_report, bind, get, lift.
  destruct (weather_report_text P intro st); reflexivity.
Qed.

End ReportFacts.

(** ** Running the member functions *)

Ltac run :=
  unfold print_to_serial, emit, bind, get, modify, ret, lift, fault; simpl.

Ltac flatten_log := rewrite <- ?app_assoc; cbn [app].

Section Runs.

Context (P : Platform).

Lemma update_alarm_same (alarm_in : Z) (st : Station) :
  timestamp (next_alarm st) = alarm_in ->
  update_alarm alarm_in st = Some (tt, st).
Proof.
  intros H. unfold update_alarm. run.
  destruct (Z.eqb_spec (timestamp (next_alarm st)) alarm_in);
    [reflexivity|contradiction].
Qed.

Lemma update_alarm_changed (alarm_in : Z) (st : Station) :
  timestamp (next_alarm st) <> alarm_in ->
  update_alarm alarm_in st = Some (tt, alarm_updated alarm_in st).
Proof.
  intros H. unfold update_alarm, alarm_updated. run.
  destruct (Z.eqb_spec (timestamp (next_alarm st)) alarm_in); [contradiction|].
  destruct ((epoch (last_observation st) >? alarm_in) || (alarm_in =? 0));
    run; unfold set_log, set_timestamp, set_rang, set_next_alarm; simpl;
    flatten_log; reflexivity.
Qed.

Lemma handle_alarm_run (st : Station) :
  _handle_alarm P st
  = option_map (fun w => (tt, fired P st w))
      (weather_report_text P ("Daily Report!" ++ LF) st).
Proof.
  unfold _handle_alarm, update_shadow_state. run.
  rewrite get_weather_report_run.
  match goal with
  | |- context [weather_report_text P ?i (set_rang true ?s')] =>
      rewrite (weather_report_text_frame P i st (set_rang true s'))
        by reflexivity;
      destruct (weather_report_text P i st) as [w|]
  end; simpl; [|reflexivity].
  unfold fired, set_log, set_rang, set_next_alarm; simpl.
  flatten_log. reflexivity.
Qed.

Lemma make_observation_fault (s : Sample) (st : Station) :
  sensors_ok s = false ->
  make_observation P s st = Some (tt, sensor_fault_outcome st).
Proof.
  intros H. unfold make_observation. rewrite H. run.
  unfold sensor_fault_outcome, set_log; simpl. flatten_log. reflexivity.
Qed.

Lemma make_observation_ok (s : Sample) (st : Station) :
  sensors_ok s = true ->
  make_observation P s st
  = if rings (next_alarm st) (I32.wrap (ntp_epoch s))
    then _handle_alarm P (ringing s st)
    else Some (tt, set_last_observation (observed s) st).
Proof.
  intros H. unfold make_observation, rings. rewrite H. run.
  destruct (rang (next_alarm st)); simpl; [reflexivity|].
  destruct ((I32.wrap (ntp_epoch s) >? timestamp (next_alarm st))
            && (I32.add (timestamp (next_alarm st)) ALARM_WINDOW
                >? I32.wrap (ntp_epoch s))); reflexivity.
Qed.

End Runs.

(** ** Logs *)

Lemma sends_app (l l' : list Event) :
  sends (l ++ l') = (sends l + sends l')%nat.
Proof. unfold sends. rewrite filter_app, length_app. reflexivity. Qed.

Lemma publishes_app (l l' : list Event) :
  publishes (l ++ l') = (publishes l + publishes l')%nat.
Proof. unfold publishes. rewrite filter_app, length_app. reflexivity. Qed.

Lemma app_nil_inv {A : Type} (l l' : list A) : (l ++ l' = l -> l' = [])%list.
Proof.
  intros H. apply (app_inv_head l). rewrite app_nil_r. exact H.
Qed.

Ltac count_log :=
  rewrite ?sends_app, ?publishes_app;
  repeat match goal with
    | |- context [sends (?a :: ?l)] =>
        let v := eval cbv beta iota delta [sends filter is_send length]
                 in (sends (a :: l)) in
        change (sends (a :: l)) with v
    | |- context [publishes (?a :: ?l)] =>
        let v := eval cbv beta iota delta [publishes filter is_publish length]
                 in (publishes (a :: l)) in
        change (publishes (a :: l)) with v
    end;
  try lia.

(** ** The alarm setter *)

(** C6: calling [update_alarm] a second time with the same timestamp changes
    nothing, neither the fields nor the log of calls on the collaborators;
    and [update_alarm] is a no-op whenever its argument is the current
    timestamp. *)
Theorem update_alarm_idempotent (T : Z) (st : Station) :
  exists st1,
    update_alarm T st = Some (tt, st1)
    /\ update_alarm T st1 = Some (tt, st1)
    /\ update_alarm (timestamp (next_alarm st)) st = Some (tt, st).
Proof.
  destruct (Z.eq_dec (timestamp (next_alarm st)) T) as [He|Hne].
  - exists st. rewrite He. rewrite (update_alarm_same T st He). auto.
  - exists (alarm_updated T st).
    rewrite (update_alarm_changed T st Hne).
    repeat split; apply update_alarm_same; reflexivity.
Qed.

(** C2, as stated, fails when the new timestamp equals the epoch of the last
    observation: the alarm is armed. *)
Lemma update_alarm_at_epoch_arms :
  100 <> 0
  /\ 100 <> timestamp (next_alarm Bench.early)
  /\ 100 <= epoch (last_observation Bench.early)
  /\ exists st',
       update_alarm 100 Bench.early = Some (tt, st')
       /\ timestamp (next_alarm st') = 100
       /\ rang (next_alarm st') = false
       /\ Armed (next_alarm st')
       /\ ~ Rung (next_alarm st').
Proof.
  simpl. repeat split; try lia; try discriminate.
  eexists. repeat split; try reflexivity; try discriminate.
Qed.

(** C2, amended: for [T <> 0] different from the current timestamp and
    strictly before the epoch of the last observation, [update_alarm T]
    leaves the alarm rung with timestamp [T], not armed, and sends and
    publishes nothing. *)
Theorem update_alarm_past_is_rung (T : Z) (st : Station) :
  T <> 0 ->
  T <> timestamp (next_alarm st) ->
  T < epoch (last_observation st) ->
  exists st',
    update_alarm T st = Some (tt, st')
    /\ Rung (next_alarm st')
    /\ timestamp (next_alarm st') = T
    /\ ~ Armed (next_alarm st')
    /\ sends (log st') = sends (log st)
    /\ publishes (log st') = publishes (log st).
Proof.
  intros H0 Hne Hlt.
  exists (alarm_updated T st).
  rewrite update_alarm_changed by congruence.
  assert (Hr : rang (next_alarm (alarm_updated T st)) = true).
  { simpl. apply orb_true_iff. left. apply Z.gtb_lt. exact Hlt. }
  repeat apply conj.
  - reflexivity.
  - exact Hr.
  - reflexivity.
  - unfold Armed. rewrite Hr. intros [_ Hf]. discriminate.
  - simpl. count_log.
  - simpl. count_log.
Qed.

Lemma update_alarm_past_is_rung_witness :
  (4000 <> 0 /\ 4000 <> timestamp (next_alarm Bench.idle)
   /\ 4000 < epoch (last_observation Bench.idle))
  /\ exists st',
       update_alarm 4000 Bench.idle = Some (tt, st')
       /\ Rung (next_alarm st')
       /\ timestamp (next_alarm st') = 4000
       /\ ~ Armed (next_alarm st')
       /\ sends (log st') = sends (log Bench.idle)
       /\ publishes (log st') = publishes (log Bench.idle).
Proof.
  split.
  - simpl. repeat split; lia.
  - apply (update_alarm_past_is_rung 4000 Bench.idle); simpl; lia.
Defined.

(** ** The unit setter *)

(** C9, as stated, fails: [update_units] returns [void], so nothing its caller
    receives tells a refused input from an accepted one. *)
Lemma update_units_returns_no_status :
  ~ exists status : unit -> bool,
      option_map status (returned (update_units "bogus" Bench.idle))
      = Some false
      /\ option_map status (returned (update_units "metric" Bench.idle))
         = Some true.
Proof.
  intros [status [Hb Hm]].
  vm_compute in Hb. vm_compute in Hm.
  destruct (status tt); discriminate.
Qed.

(** C9, amended: for an input that is neither "metric" nor "imperial",
    [update_units] leaves the unit type (and every other field) unchanged
    and reports the refusal on the serial console only; for "metric" and
    "imperial" it stores the input as the unit type and prints the
    confirmation.  It returns no status in either case. *)
Theorem update_units_validates (units_in : string) (st : Station) :
  (units_in <> "metric" -> units_in <> "imperial" ->
   update_units units_in st = Some (tt, units_refused st)
   /\ unit_type (units_refused st) = unit_type st)
  /\ (units_in = "metric" \/ units_in = "imperial" ->
      update_units units_in st = Some (tt, units_taken units_in st)
      /\ unit_type (units_taken units_in st) = units_in).
Proof.
  unfold update_units. split.
  - intros Hm Hi.
    destruct (String.eqb_spec units_in "imperial"); [contradiction|].
    destruct (String.eqb_spec units_in "metric"); [contradiction|].
    split; reflexivity.
  - intros [-> | ->]; split; try reflexivity; run;
      unfold units_taken, set_log, set_unit_type; simpl;
      flatten_log; reflexivity.
Qed.

Lemma update_units_validates_witness :
  ("bogus" <> "metric" /\ "bogus" <> "imperial"
   /\ ("imperial" = "metric" \/ "imperial" = "imperial"))
  /\ (update_units "bogus" Bench.idle = Some (tt, units_refused Bench.idle)
      /\ unit_type (units_refused Bench.idle) = unit_type Bench.idle)
  /\ (update_units "imperial" Bench.idle
      = Some (tt, units_taken "imperial" Bench.idle)
      /\ unit_type (units_taken "imperial" Bench.idle) = "imperial").
Proof.
  split; [|split].
  - repeat split; try discriminate. right. reflexivity.
  - apply (update_units_validates "bogus" Bench.idle); discriminate.
  - apply (update_units_validates "imperial" Bench.idle).
    right. reflexivity.
Defined.

(** ** Properties established along a sequence of calls *)

Section Always.

Context {A B : Type} (I : Station -> Prop).

Lemma always_ret (a : A) : always I (ret a).
Proof. intros st HI. exists a, st. split; [reflexivity|exact HI]. Qed.

Lemma always_bind (m : M A) (k : A -> M B) :
  always I m -> (forall a, always I (k a)) -> always I (bind m k).
Proof.
  intros Hm Hk st HI. unfold bind.
  destruct (Hm st HI) as [a [st1 [-> HI1]]].
  exact (Hk a st1 HI1).
Qed.

Lemma always_if (c : bool) (m1 m2 : M A) :
  always I m1 -> always I m2 -> always I (if c then m1 else m2).
Proof. destruct c; auto. Qed.

End Always.

Lemma always_get (I : Station -> Prop) : always I get.
Proof. intros st HI. exists st, st. split; [reflexivity|exact HI]. Qed.

Lemma always_modify (I : Station -> Prop) (f : Station -> Station) :
  (forall st, I st -> I (f st)) -> always I (modify f).
Proof. intros Hf st HI. exists tt, (f st). split; [reflexivity|auto]. Qed.

Lemma always_emit (I : Station -> Prop) (e : Event) :
  ignores_serial I -> is_send e = false -> is_publish e = false ->
  always I (emit e).
Proof.
  intros HI Hs Hp. apply always_modify. intros st H. apply HI; assumption.
Qed.

Lemma always_print (I : Station -> Prop) (a : SerialArg) :
  ignores_serial I -> always I (print_to_serial a).
Proof.
  intros HI. apply always_emit; [exact HI | reflexivity | reflexivity].
Qed.

(** The walk through a sequence of prints that establishes a property
    ignoring the serial output; other calls are left as goals. *)
Ltac step_always HI :=
  repeat lazymatch goal with
    | |- always _ (bind _ _) => apply always_bind; [|intros ?]
    | |- always _ (ret _) => apply always_ret
    | |- always _ get => apply always_get
    | |- always _ (print_to_serial _) => apply (always_print _ _ HI)
    | |- always _ (emit NtpUpdate) =>
        apply (always_emit _ _ HI); reflexivity
    end.

Lemma always_print_observation (P : Platform) (I : Station -> Prop)
    (ft : string) (obs : WObservation) :
  ignores_serial I -> always I (print_observation P ft obs).
Proof. intros HI. unfold print_observation. step_always HI. Qed.

(** The heartbeat around a sample that establishes [I]. *)
Lemma always_yield (P : Platform) (I : Station -> Prop) (t : Tick) :
  ignores_serial I ->
  (forall z st, I st -> I (set_last_weather_check z st)) ->
  always I (make_observation P (tick_sample t)) ->
  always I (yield P t).
Proof.
  intros HI Hw Hm. unfold yield. step_always HI.
  apply always_if; step_always HI.
  - apply always_modify. intros st H. apply Hw. exact H.
  - exact Hm.
  - apply always_print_observation. exact HI.
Qed.

(** ** The report and the sensor faults *)

Section Claims.

Context (P : Platform).

(** C8: for every observation whose day index is a day of the week, every
    unit system and every intro, [get_weather_report] returns a string of
    at most 160 bytes, the intro included. *)
Theorem weather_report_length (intro : string) (st : Station) :
  0 <= day (last_observation st) < 7 ->
  exists w,
    get_weather_report P intro st = Some (w, st)
    /\ (String.length w <= 160)%nat.
Proof.
  intros Hd.
  destruct (weather_report_text_some P intro st Hd) as [w Hw].
  exists w. rewrite get_weather_report_run, Hw. split; [reflexivity|].
  pose proof (weather_report_text_length P intro st w Hw). lia.
Qed.

(** C10: the sea-level pressure of the weather report is
    [_hpa_to_sea_level] applied to the humidity of the last observation
    (in the place of the Celsius temperature), its pressure and the
    station altitude; both pressure texts of the report are printed from
    that value, which does not depend on the temperature of the
    observation. *)
Theorem report_pressure_uses_humidity (st : Station) :
  r_slvl_press (report_locals P st)
  = _hpa_to_sea_level P st (humidity (last_observation st))
      (pressure (last_observation st)) (location_altitude st)
  /\ r_pressure (report_locals P st)
     = dtostrf P
         (F64.of_f32
            (_hpa_to_sea_level P st (humidity (last_observation st))
               (pressure (last_observation st)) (location_altitude st)))
         8 2
  /\ r_pressure_conv (report_locals P st)
     = (if String.eqb (unit_type st) "imperial"
        then dtostrf P
               (F64.of_f32
                  (_hpa_to_in_mercury P
                     (_hpa_to_sea_level P st
                        (humidity (last_observation st))
                        (pressure (last_observation st))
                        (location_altitude st))))
               8 2
        else dtostrf P
               (F64.of_f32
                  (_in_to_mm P
                     (_hpa_to_in_mercury P
                        (_hpa_to_sea_level P st
                           (humidity (last_observation st))
                           (pressure (last_observation st))
                           (location_altitude st)))))
               8 2)
  /\ (forall intro,
        weather_report_text P intro st
        = match int_to_day (day (last_observation st)) with
          | Some day_name =>
              snprintf (printf_bad_directive P) 160 REPORT_FORMAT
                [PfStr intro; PfStr day_name;
                 PfInt (hour (last_observation st));
                 PfInt (minute (last_observation st));
                 PfInt (second (last_observation st));
                 PfStr (r_temperature (report_locals P st));
                 PfStr (r_f_or_c (report_locals P st));
                 PfStr (r_humidity (report_locals P st));
                 PfStr (r_pressure (report_locals P st));
                 PfStr (r_pressure_conv (report_locals P st));
                 PfStr (r_in_or_mm (report_locals P st))]
          | None => None
          end)
  /\ (forall t : spec_float,
        r_slvl_press
          (report_locals P
             (set_last_observation
                (mkObs t (humidity (last_observation st))
                   (pressure (last_observation st))
                   (day (last_observation st))
                   (hour (last_observation st))
                   (minute (last_observation st))
                   (second (last_observation st))
                   (epoch (last_observation st)))
                st))
        = r_slvl_press (report_locals P st)).
Proof.
  split; [|split; [|split; [|split]]].
  - unfold report_locals.
    destruct (String.eqb (unit_type st) "imperial"); reflexivity.
  - unfold report_locals.
    destruct (String.eqb (unit_type st) "imperial"); reflexivity.
  - unfold report_locals.
    destruct (String.eqb (unit_type st) "imperial"); reflexivity.
  - intros intro. reflexivity.
  - intros t. unfold report_locals.
    change (unit_type (set_last_observation _ st)) with (unit_type st).
    destruct (String.eqb (unit_type st) "imperial"); reflexivity.
Qed.

(** C4: when a sample takes the sensor-fault branch, the stored
    observation (the record, hence each of its eight fields) and the alarm
    are what they were before the call; so they are after a heartbeat
    whose sample takes that branch. *)
Theorem sensor_fault_retains_state (s : Sample) (st : Station) :
  sensors_ok s = false ->
  (exists st',
     make_observation P s st = Some (tt, st')
     /\ last_observation st' = last_observation st
     /\ next_alarm st' = next_alarm st)
  /\ (forall (ms ms' hb ha : Z) (ft : string),
        exists st',
          yield P (mkTick ms ms' hb ha s ft) st = Some (tt, st')
          /\ last_observation st' = last_observation st
          /\ next_alarm st' = next_alarm st).
Proof.
  intros Hf.
  set (I := fun st' : Station =>
              last_observation st' = last_observation st
              /\ next_alarm st' = next_alarm st).
  assert (Hm : always I (make_observation P s)).
  { intros st1 H1. exists tt, (sensor_fault_outcome st1).
    rewrite make_observation_fault by exact Hf. auto. }
  assert (HI : ignores_serial I) by (intros st1 e _ _ H; exact H).
  assert (Hw : forall z st1, I st1 -> I (set_last_weather_check z st1))
    by (intros z st1 H; exact H).
  assert (H0 : I st) by (split; reflexivity).
  split.
  - destruct (Hm st H0) as [[] [st' [Hr H']]].
    exists st'. split; [exact Hr | exact H'].
  - intros ms ms' hb ha ft.
    destruct (always_yield P I (mkTick ms ms' hb ha s ft) HI Hw Hm st H0)
      as [[] [st' [Hr H']]].
    exists st'. split; [exact Hr | exact H'].
Qed.

Lemma some_state_log {A : Type} (a b : A) (st st' : Station) :
  Some (a, st) = Some (b, st') -> log st = log st'.
Proof.
  intros H. assert (E : st = st') by congruence. rewrite E. reflexivity.
Qed.

Lemma sensors_ok_false (s : Sample) :
  sensors_ok s = false <->
  ((exists sgn, bmp_pressure s = S754_zero sgn)
   \/ dht_humidity s = S754_nan
   \/ dht_temperature s = S754_nan).
Proof.
  unfold sensors_ok, F32.to_bool, F32.isnan. split.
  - destruct (bmp_pressure s); eauto;
      destruct (dht_humidity s); auto;
      destruct (dht_temperature s); auto; discriminate.
  - intros [[sgn ->] | [-> | ->]]; [reflexivity| |].
    + destruct (bmp_pressure s); reflexivity.
    + destruct (bmp_pressure s); destruct (dht_humidity s); reflexivity.
Qed.

(** C3, amended: a sample takes its failure branch (the diagnostic on the
    serial console, no observation update, no alarm check) if and only if
    the pressure reading is zero (+0 or -0), or the humidity reading is a
    NaN, or the temperature reading of the humidity sensor is a NaN. *)
Theorem sensor_fault_iff (s : Sample) (st : Station) :
  make_observation P s st = Some (tt, sensor_fault_outcome st)
  <-> ((exists sgn, bmp_pressure s = S754_zero sgn)
       \/ dht_humidity s = S754_nan
       \/ dht_temperature s = S754_nan).
Proof.
  rewrite <- sensors_ok_false. split.
  - destruct (sensors_ok s) eqn:Hok; [|reflexivity].
    rewrite make_observation_ok by exact Hok.
    destruct (rings (next_alarm st) (I32.wrap (ntp_epoch s))).
    + rewrite handle_alarm_run.
      destruct (weather_report_text P _ (ringing s st)) as [w|];
        [|discriminate].
      intros Hst. apply some_state_log in Hst. revert Hst.
      cbn [fired ringing sensor_fault_outcome log set_log set_rang
           set_next_alarm set_last_observation].
      rewrite <- app_assoc. intros Hl. apply app_inv_head in Hl.
      discriminate.
    + intros Hst. apply some_state_log in Hst. revert Hst.
      cbn [sensor_fault_outcome log set_log set_last_observation].
      intros Hl. symmetry in Hl. apply app_nil_inv in Hl. discriminate.
  - intros Hf. apply make_observation_fault. exact Hf.
Qed.

End Claims.

(** ** Properties kept by the member functions *)

Section Preservation.

Context {A B : Type} (I : Station -> Prop).

Lemma preserves_ret (a : A) : preserves I (ret a).
Proof. intros st a' st' HI [= _ <-]. exact HI. Qed.

Lemma preserves_bind (m : M A) (k : A -> M B) :
  preserves I m -> (forall a, preserves I (k a)) -> preserves I (bind m k).
Proof.
  intros Hm Hk st b st' HI. unfold bind.
  destruct (m st) as [[a st1]|] eqn:E; [|discriminate].
  intros Hr. exact (Hk a st1 b st' (Hm st a st1 HI E) Hr).
Qed.

Lemma preserves_lift (o : option A) : preserves I (lift o).
Proof.
  destruct o as [a|]; simpl; [apply preserves_ret|].
  intros st a st' _ [=].
Qed.

Lemma preserves_if (c : bool) (m1 m2 : M A) :
  preserves I m1 -> preserves I m2 -> preserves I (if c then m1 else m2).
Proof. destruct c; auto. Qed.

End Preservation.

Lemma preserves_get (I : Station -> Prop) : preserves I get.
Proof. intros st a st' HI [= _ <-]. exact HI. Qed.

Lemma preserves_modify (I : Station -> Prop) (f : Station -> Station) :
  (forall st, I st -> I (f st)) -> preserves I (modify f).
Proof.
  intros Hf st a st' HI H. unfold modify in H.
  assert (E : st' = f st) by congruence.
  rewrite E. apply Hf. exact HI.
Qed.

Lemma alarm_inv_emit (e : Event) : preserves alarm_inv (emit e).
Proof. apply preserves_modify. intros st H. exact H. Qed.

Lemma alarm_inv_print (a : SerialArg) : preserves alarm_inv (print_to_serial a).
Proof. apply alarm_inv_emit. Qed.

Lemma alarm_inv_rung (st : Station) : alarm_inv (set_rang true st).
Proof. intros _. reflexivity. Qed.

Lemma alarm_inv_update_alarm (alarm_in : Z) :
  preserves alarm_inv (update_alarm alarm_in).
Proof.
  intros st a st' HI.
  destruct (Z.eq_dec (timestamp (next_alarm st)) alarm_in) as [He|Hne].
  - rewrite update_alarm_same by exact He. intros [= _ <-]. exact HI.
  - rewrite update_alarm_changed by exact Hne. intros [= _ <-].
    unfold alarm_inv. simpl. intros ->. apply orb_true_r.
Qed.

(** The walk through a sequence of calls that keeps [alarm_inv]; the calls
    of other member functions are left to their own lemmas. *)
Ltac keep_alarm_inv :=
  repeat lazymatch goal with
    | |- preserves _ (bind _ _) => apply preserves_bind; [|intros ?]
    | |- preserves _ (if _ then _ else _) => apply preserves_if
    | |- preserves _ (ret _) => apply preserves_ret
    | |- preserves _ get => apply preserves_get
    | |- preserves _ (lift _) => apply preserves_lift
    | |- preserves _ (print_to_serial _) => apply alarm_inv_print
    | |- preserves _ (emit _) => apply alarm_inv_emit
    | |- preserves _ (update_alarm _) => apply alarm_inv_update_alarm
    | |- preserves _ (modify _) =>
        apply preserves_modify; intros ? ?;
        first [ assumption | apply alarm_inv_rung | intros _; reflexivity ]
    end.

Section AlarmInvariant.

Context (P : Platform).

Lemma alarm_inv_get_weather_report (intro : string) :
  preserves alarm_inv (get_weather_report P intro).
Proof. unfold get_weather_report. keep_alarm_inv. Qed.

Lemma alarm_inv_print_observation (ft : string) (obs : WObservation) :
  preserves alarm_inv (print_observation P ft obs).
Proof. unfold print_observation. keep_alarm_inv. Qed.

Lemma alarm_inv_update_shadow_state (topic : string) (al : Z) (un : string)
    (alt tz : Z) (tn mn : string) :
  preserves alarm_inv (update_shadow_state P topic al un alt tz tn mn).
Proof. unfold update_shadow_state. keep_alarm_inv. Qed.

Lemma alarm_inv_handle_alarm : preserves alarm_inv (_handle_alarm P).
Proof.
  unfold _handle_alarm.
  keep_alarm_inv;
    auto using alarm_inv_update_shadow_state, alarm_inv_get_weather_report.
Qed.

Lemma alarm_inv_make_observation (s : Sample) :
  preserves alarm_inv (make_observation P s).
Proof.
  unfold make_observation. keep_alarm_inv; auto using alarm_inv_handle_alarm.
Qed.

Lemma alarm_inv_yield (t : Tick) : preserves alarm_inv (yield P t).
Proof.
  unfold yield.
  keep_alarm_inv;
    auto using alarm_inv_make_observation, alarm_inv_print_observation.
Qed.

Lemma alarm_inv_perform (c : Call) : preserves alarm_inv (perform P c).
Proof.
  destruct c; cbn [perform].
  - apply alarm_inv_yield.
  - keep_alarm_inv. apply alarm_inv_get_weather_report.
  - apply alarm_inv_make_observation.
  - apply alarm_inv_print_observation.
  - apply alarm_inv_update_alarm.
  - unfold update_units. keep_alarm_inv.
  - unfold update_alt. keep_alarm_inv.
  - unfold update_tz. keep_alarm_inv.
  - unfold update_tnum. keep_alarm_inv.
  - unfold update_mnum. keep_alarm_inv.
  - unfold report_shadow_state. keep_alarm_inv.
  - apply alarm_inv_update_shadow_state.
Qed.

Lemma alarm_inv_constructor (a : CtorArgs) (b : Boot) :
  preserves alarm_inv (constructor_body P a b).
Proof.
  unfold constructor_body, _display_bmp_sensor_details.
  keep_alarm_inv;
    auto using alarm_inv_make_observation, alarm_inv_print_observation.
Qed.

Lemma reachable_alarm_inv (st : Station) : reachable P st -> alarm_inv st.
Proof.
  induction 1 as [a b st Hnew | c st st' Hr IH Hc].
  - unfold TwilioWeatherStation in Hnew.
    destruct (constructor_body P a b (initialised a)) as [[[] st0]|] eqn:E;
      [|discriminate].
    injection Hnew as <-.
    apply (alarm_inv_constructor a b (initialised a) tt st0); [|exact E].
    intros _. reflexivity.
  - exact (alarm_inv_perform c st tt st' IH Hc).
Qed.

End AlarmInvariant.

(** ** The alarm *)

Lemma I32_add_small (a b : Z) : I32.in_range (a + b) -> I32.add a b = a + b.
Proof. intros H. unfold I32.add. apply I32_wrap_id. exact H. Qed.

Lemma I32_wrap_above (z : Z) :
  I32.max_signed < z <= I32.max_signed + 2 ^ 32 ->
  I32.wrap z = z - 2 ^ 32.
Proof.
  unfold I32.max_signed, I32.wrap. intros H.
  replace (z + 2 ^ 31) with ((z - 2 ^ 31) + 1 * 2 ^ 32) by lia.
  rewrite Z_mod_plus_full, Z.mod_small; lia.
Qed.

Section AlarmClaims.

Context (P : Platform).

(** C5: from every reachable state, [update_alarm 0] leaves the alarm
    disabled, with timestamp 0 and [rang] true, whatever the timestamp and
    the flag were; when the timestamp was 0 already the call changes
    nothing. *)
Theorem update_alarm_zero_disables (st : Station) :
  reachable P st ->
  exists st',
    update_alarm 0 st = Some (tt, st')
    /\ Disabled (next_alarm st')
    /\ timestamp (next_alarm st') = 0
    /\ rang (next_alarm st') = true
    /\ (timestamp (next_alarm st) = 0 -> st' = st).
Proof.
  intros Hr. pose proof (reachable_alarm_inv P st Hr) as Hinv.
  destruct (Z.eq_dec (timestamp (next_alarm st)) 0) as [He|Hne].
  - exists st. rewrite update_alarm_same by exact He.
    repeat apply conj; auto.
  - exists (alarm_updated 0 st). rewrite update_alarm_changed by exact Hne.
    repeat apply conj; try reflexivity.
    + simpl. apply orb_true_r.
    + intros He. contradiction.
Qed.

(** C7, amended: run from an armed alarm with timestamp [T] and an
    observation whose day index is a day of the week, [_handle_alarm] sets
    [rang], keeps the timestamp [T], and sends one message, whose body is
    the weather report of the current observation.  It publishes once, on
    the shadow topic: the payload is what [printTo] leaves, in a buffer of
    [maxMQTTpackageSize] bytes, of the desired-state document whose alarm
    member is [T + 86400] computed in [int32_t] arithmetic: the integer
    [T + 86400] whenever that is at most 2147483647, and the wrapped sum
    [T + 86400 - 2 ^ 32] otherwise. *)
Theorem handle_alarm_fires (st : Station) :
  Armed (next_alarm st) ->
  0 <= day (last_observation st) < 7 ->
  exists (w : string) (st' : Station),
    _handle_alarm P st = Some (tt, st')
    /\ weather_report_text P ("Daily Report!" ++ LF) st = Some w
    /\ rang (next_alarm st') = true
    /\ timestamp (next_alarm st') = timestamp (next_alarm st)
    /\ log st'
       = (log st
          ++ [Serial
                (SStr
                   (json_printTo P
                      (desired_document
                         (I32.add (timestamp (next_alarm st)) 86400)
                         (unit_type st) (location_altitude st)
                         (time_zone_offset st) (twilio_device_number st)
                         (master_number st))
                      (maxMQTTpackageSize P)));
              Publish (c_str (shadow_topic st))
                (json_printTo P
                   (desired_document
                      (I32.add (timestamp (next_alarm st)) 86400)
                      (unit_type st) (location_altitude st)
                      (time_zone_offset st) (twilio_device_number st)
                      (master_number st))
                   (maxMQTTpackageSize P));
              SendTwilio (c_str (twilio_topic st)) (master_number st)
                (twilio_device_number st) w EmptyString])%list
    /\ shadow_field "desired" "alarm"
         (desired_document
            (I32.add (timestamp (next_alarm st)) 86400)
            (unit_type st) (location_altitude st) (time_zone_offset st)
            (twilio_device_number st) (master_number st))
       = Some (JInt (I32.add (timestamp (next_alarm st)) 86400))
    /\ (timestamp (next_alarm st) + 86400 <= I32.max_signed ->
        I32.add (timestamp (next_alarm st)) 86400
        = timestamp (next_alarm st) + 86400)
    /\ (timestamp (next_alarm st) <= I32.max_signed ->
        I32.max_signed < timestamp (next_alarm st) + 86400 ->
        I32.add (timestamp (next_alarm st)) 86400
        = timestamp (next_alarm st) + 86400 - 2 ^ 32)
    /\ sends (log st') = (sends (log st) + 1)%nat
    /\ publishes (log st') = (publishes (log st) + 1)%nat.
Proof.
  intros [Hpos _] Hd.
  destruct (weather_report_text_some P ("Daily Report!" ++ LF) st Hd)
    as [w Hw].
  exists w, (fired P st w).
  rewrite handle_alarm_run, Hw.
  repeat apply conj; try reflexivity.
  - intros Hmax. apply I32_add_small.
    unfold I32.in_range, I32.min_signed. lia.
  - intros Hfit Hover. unfold I32.add. apply I32_wrap_above.
    unfold I32.max_signed in *. lia.
  - cbn [fired log set_log]. count_log.
  - cbn [fired log set_log]. count_log.
Qed.

(** Once the alarm is rung a sample leaves it alone, and neither sends nor
    publishes. *)
Lemma rung_make_observation (a : Alarm) (n m : nat) (s : Sample) :
  rang a = true ->
  always (fun st => next_alarm st = a
                    /\ sends (log st) = n /\ publishes (log st) = m)
    (make_observation P s).
Proof.
  intros Ha st [Hn [Hs Hp]]. exists tt.
  destruct (sensors_ok s) eqn:Hok.
  - rewrite make_observation_ok by exact Hok.
    unfold rings. rewrite Hn, Ha. cbn [negb andb].
    eexists. split; [reflexivity|]. auto.
  - rewrite make_observation_fault by exact Hok.
    eexists. split; [reflexivity|].
    cbn [sensor_fault_outcome set_log next_alarm log].
    repeat apply conj; [exact Hn | count_log | count_log].
Qed.

Lemma rung_run_samples (a : Alarm) (n m : nat) (l : list Sample) :
  rang a = true ->
  always (fun st => next_alarm st = a
                    /\ sends (log st) = n /\ publishes (log st) = m)
    (run_samples P l).
Proof.
  intros Ha. induction l as [|s l IH]; cbn [run_samples].
  - apply always_ret.
  - apply always_bind; [apply rung_make_observation; exact Ha|].
    intros _. exact IH.
Qed.

(** C1, amended: with the alarm unrung at timestamp [T] (the end [T + 360]
    of the window being an [int32_t]), a successful sample whose observation
    epoch [E] satisfies [T < E < T + 2 * sample_interval] runs the firing
    transition: [rang] goes from false to true, one message is sent and one
    document is published; after it, no run of further samples sends or
    publishes anything, and the alarm stays rung at [T]. *)
Theorem alarm_rings_once (s : Sample) (later : list Sample) (st : Station) :
  rang (next_alarm st) = false ->
  sensors_ok s = true ->
  I32.in_range (timestamp (next_alarm st) + ALARM_WINDOW) ->
  timestamp (next_alarm st) < epoch (observed s)
    < timestamp (next_alarm st) + 2 * (RECHECK_WEATHER_INTERVAL / 1000) ->
  0 <= day (observed s) < 7 ->
  exists st1 st2 : Station,
    make_observation P s st = Some (tt, st1)
    /\ last_observation st1 = observed s
    /\ rang (next_alarm st1) = true
    /\ timestamp (next_alarm st1) = timestamp (next_alarm st)
    /\ sends (log st1) = (sends (log st) + 1)%nat
    /\ publishes (log st1) = (publishes (log st) + 1)%nat
    /\ run_samples P later st1 = Some (tt, st2)
    /\ rang (next_alarm st2) = true
    /\ timestamp (next_alarm st2) = timestamp (next_alarm st)
    /\ sends (log st2) = sends (log st1)
    /\ publishes (log st2) = publishes (log st1).
Proof.
  intros Hr Hok Hrange Hwin Hday.
  change (2 * (RECHECK_WEATHER_INTERVAL / 1000)) with 360 in Hwin.
  assert (Hrings : rings (next_alarm st) (I32.wrap (ntp_epoch s)) = true).
  { unfold rings. rewrite Hr. cbn [negb andb].
    rewrite (I32_add_small _ _ Hrange). rewrite ALARM_WINDOW_value.
    cbn [observed epoch] in Hwin.
    apply andb_true_iff. split; apply Z.gtb_lt; lia. }
  destruct (weather_report_text_some P ("Daily Report!" ++ LF) (ringing s st))
    as [w Hw]; [exact Hday|].
  pose (st1 := fired P (ringing s st) w).
  assert (Hm : make_observation P s st = Some (tt, st1)).
  { rewrite make_observation_ok by exact Hok. rewrite Hrings.
    rewrite handle_alarm_run, Hw. reflexivity. }
  destruct (rung_run_samples (next_alarm st1) (sends (log st1))
              (publishes (log st1)) later eq_refl st1
              (conj eq_refl (conj eq_refl eq_refl)))
    as [[] [st2 [Hrun [Hn [Hs Hp]]]]].
  exists st1, st2. rewrite Hm, Hrun, Hn.
  repeat apply conj; try reflexivity; try assumption.
  - subst st1. cbn [fired ringing log set_log set_last_observation].
    rewrite <- app_assoc. count_log.
  - subst st1. cbn [fired ringing log set_log set_last_observation].
    rewrite <- app_assoc. count_log.
Qed.

End AlarmClaims.

(** ** Concrete runs *)

Lemma booted_reachable : reachable Bench.platform Bench.booted.
Proof.
  apply (reachable_new Bench.platform Bench.args Bench.boot).
  vm_compute. reflexivity.
Defined.

Lemma rearmed_reachable : reachable Bench.platform Bench.rearmed.
Proof.
  apply (reachable_call Bench.platform (CallUpdateAlarm 6000)
           Bench.booted Bench.rearmed booted_reachable).
  vm_compute. reflexivity.
Defined.

Lemma update_alarm_zero_disables_witness :
  reachable Bench.platform Bench.rearmed
  /\ rang (next_alarm Bench.rearmed) = false
  /\ exists st',
       update_alarm 0 Bench.rearmed = Some (tt, st')
       /\ Disabled (next_alarm st')
       /\ timestamp (next_alarm st') = 0
       /\ rang (next_alarm st') = true
       /\ (timestamp (next_alarm Bench.rearmed) = 0 -> st' = Bench.rearmed).
Proof.
  split; [exact rearmed_reachable|].
  split; [vm_compute; reflexivity|].
  apply (update_alarm_zero_disables Bench.platform Bench.rearmed).
  exact rearmed_reachable.
Defined.

Lemma handle_alarm_fires_witness :
  (Armed (next_alarm Bench.armed)
   /\ 0 <= day (last_observation Bench.armed) < 7
   /\ timestamp (next_alarm Bench.armed) + 86400 <= I32.max_signed)
  /\ exists (w : string) (st' : Station),
       _handle_alarm Bench.platform Bench.armed = Some (tt, st')
       /\ rang (next_alarm st') = true
       /\ timestamp (next_alarm st') = 6000
       /\ last_published (log st')
          = Some (json_printTo Bench.platform
                    (desired_document 92400 "metric" 120 (-480)
                       "+15550002222" "+15550001111")
                    512)
       /\ I32.add (timestamp (next_alarm Bench.armed)) 86400 = 92400
       /\ sends (log st') = 1%nat
       /\ publishes (log st') = 1%nat.
Proof.
  assert (Ha : Armed (next_alarm Bench.armed))
    by (split; [reflexivity | reflexivity]).
  assert (Hd : 0 <= day (last_observation Bench.armed) < 7)
    by (simpl; lia).
  assert (Hm : timestamp (next_alarm Bench.armed) + 86400 <= I32.max_signed)
    by (unfold I32.max_signed; simpl; lia).
  split; [exact (conj Ha (conj Hd Hm))|].
  destruct (handle_alarm_fires Bench.platform Bench.armed Ha Hd)
    as [w [st' [H1 [_ [H3 [H4 [H5 [_ [H7 [_ [H8 H9]]]]]]]]]]].
  exists w, st'.
  split; [exact H1|]. split; [exact H3|]. split; [exact H4|].
  split; [rewrite H5; reflexivity|].
  split; [exact (H7 Hm)|]. split; [exact H8 | exact H9].
Defined.

(** C7, as stated, fails for an alarm within a day of the end of the
    [int32_t] range: armed at 2147400000, the document published asks for
    the alarm -2147480896, not for 2147400000 + 86400. *)
Lemma handle_alarm_wraps_alarm :
  Armed (next_alarm Bench.armed_late)
  /\ 0 <= day (last_observation Bench.armed_late) < 7
  /\ timestamp (next_alarm Bench.armed_late) = 2147400000
  /\ exists st',
       _handle_alarm Bench.platform Bench.armed_late = Some (tt, st')
       /\ last_published (log st')
          = Some (json_printTo Bench.platform
                    (desired_document (-2147480896) "metric" 120 (-480)
                       "+15550002222" "+15550001111")
                    512)
       /\ shadow_field "desired" "alarm"
            (desired_document (-2147480896) "metric" 120 (-480)
               "+15550002222" "+15550001111")
          = Some (JInt (-2147480896))
       /\ JInt (-2147480896)
          <> JInt (timestamp (next_alarm Bench.armed_late) + 86400).
Proof.
  split; [split; reflexivity|].
  split; [vm_compute; split; [discriminate | reflexivity]|].
  split; [reflexivity|].
  eexists. split; [vm_compute; reflexivity|].
  split; [vm_compute; reflexivity|].
  split; [reflexivity|].
  vm_compute. discriminate.
Qed.

Lemma weather_report_length_witness :
  0 <= day (last_observation Bench.idle) < 7
  /\ exists w,
       get_weather_report Bench.platform "Hello! " Bench.idle
       = Some (w, Bench.idle)
       /\ (String.length w <= 160)%nat.
Proof.
  assert (Hd : 0 <= day (last_observation Bench.idle) < 7) by (simpl; lia).
  split; [exact Hd|].
  exact (weather_report_length Bench.platform "Hello! " Bench.idle Hd).
Defined.

Lemma sensor_fault_retains_state_witness :
  sensors_ok Bench.sample_nan_humidity = false
  /\ (exists st',
        make_observation Bench.platform Bench.sample_nan_humidity Bench.armed
        = Some (tt, st')
        /\ last_observation st' = last_observation Bench.armed
        /\ next_alarm st' = next_alarm Bench.armed)
  /\ (forall (ms ms' hb ha : Z) (ft : string),
        exists st',
          yield Bench.platform
            (mkTick ms ms' hb ha Bench.sample_nan_humidity ft) Bench.armed
          = Some (tt, st')
          /\ last_observation st' = last_observation Bench.armed
          /\ next_alarm st' = next_alarm Bench.armed).
Proof.
  split; [reflexivity|].
  apply (sensor_fault_retains_state Bench.platform Bench.sample_nan_humidity
           Bench.armed).
  reflexivity.
Defined.

(** C3, as stated, fails in both directions: a NaN pressure reading is not
    taken as a fault (the observation is stored), and a pressure reading of
    zero, with every reading finite, is. *)
Lemma nan_pressure_is_no_fault :
  (F32.is_finite (bmp_pressure Bench.sample_nan_pressure) = false
   /\ make_observation Bench.platform Bench.sample_nan_pressure Bench.idle
      = Some (tt, set_last_observation (observed Bench.sample_nan_pressure)
                    Bench.idle)
   /\ make_observation Bench.platform Bench.sample_nan_pressure Bench.idle
      <> Some (tt, sensor_fault_outcome Bench.idle))
  /\ (F32.is_finite (bmp_pressure Bench.sample_zero_pressure) = true
      /\ F32.is_finite (dht_humidity Bench.sample_zero_pressure) = true
      /\ F32.is_finite (dht_temperature Bench.sample_zero_pressure) = true
      /\ F32.is_finite (bmp_temperature Bench.sample_zero_pressure) = true
      /\ make_observation Bench.platform Bench.sample_zero_pressure Bench.idle
         = Some (tt, sensor_fault_outcome Bench.idle)).
Proof.
  split.
  - split; [reflexivity|]. split; [vm_compute; reflexivity|].
    vm_compute. discriminate.
  - repeat apply conj; vm_compute; reflexivity.
Qed.

(** C1, as stated, fails at the end of the window: a successful sample at
    [E = T + 2 * sample_interval] does not ring the alarm. *)
Lemma alarm_window_end_excluded :
  rang (next_alarm Bench.armed) = false
  /\ sensors_ok (Bench.sample_at 6360) = true
  /\ timestamp (next_alarm Bench.armed)
     < epoch (observed (Bench.sample_at 6360))
     <= timestamp (next_alarm Bench.armed)
        + 2 * (RECHECK_WEATHER_INTERVAL / 1000)
  /\ exists st',
       make_observation Bench.platform (Bench.sample_at 6360) Bench.armed
       = Some (tt, st')
       /\ rang (next_alarm st') = false
       /\ sends (log st') = 0%nat
       /\ publishes (log st') = 0%nat.
Proof.
  split; [reflexivity|]. split; [reflexivity|].
  split; [vm_compute; split; [reflexivity | discriminate]|].
  eexists. split; [vm_compute; reflexivity|].
  repeat apply conj; reflexivity.
Qed.

Lemma alarm_rings_once_witness :
  (rang (next_alarm Bench.armed) = false
   /\ sensors_ok (Bench.sample_at 6100) = true
   /\ I32.in_range (timestamp (next_alarm Bench.armed) + ALARM_WINDOW)
   /\ timestamp (next_alarm Bench.armed)
      < epoch (observed (Bench.sample_at 6100))
      < timestamp (next_alarm Bench.armed)
        + 2 * (RECHECK_WEATHER_INTERVAL / 1000)
   /\ 0 <= day (observed (Bench.sample_at 6100)) < 7)
  /\ exists st1 st2 : Station,
       make_observation Bench.platform (Bench.sample_at 6100) Bench.armed
       = Some (tt, st1)
       /\ rang (next_alarm st1) = true
       /\ sends (log st1) = 1%nat
       /\ run_samples Bench.platform
            [Bench.sample_at 6200; Bench.sample_at 6300; Bench.sample_at 6400]
            st1
          = Some (tt, st2)
       /\ rang (next_alarm st2) = true
       /\ sends (log st2) = 1%nat.
Proof.
  assert (H1 : rang (next_alarm Bench.armed) = false) by reflexivity.
  assert (H2 : sensors_ok (Bench.sample_at 6100) = true) by reflexivity.
  assert (H3 : I32.in_range (timestamp (next_alarm Bench.armed) + ALARM_WINDOW))
    by (vm_compute; split; discriminate).
  assert (H4 : timestamp (next_alarm Bench.armed)
               < epoch (observed (Bench.sample_at 6100))
               < timestamp (next_alarm Bench.armed)
                 + 2 * (RECHECK_WEATHER_INTERVAL / 1000))
    by (vm_compute; split; reflexivity).
  assert (H5 : 0 <= day (observed (Bench.sample_at 6100)) < 7)
    by (vm_compute; split; [discriminate | reflexivity]).
  split; [auto|].
  destruct (alarm_rings_once Bench.platform (Bench.sample_at 6100)
              [Bench.sample_at 6200; Bench.sample_at 6300; Bench.sample_at 6400]
              Bench.armed H1 H2 H3 H4 H5)
    as [st1 [st2 [E1 [_ [E3 [_ [E5 [_ [E7 [E8 [_ [E10 _]]]]]]]]]]]].
  exists st1, st2.
  repeat apply conj; try assumption.
  rewrite E10. exact E5.
Defined.

(** The mean of the two temperature readings, in binary32. *)
Example observed_temperature :
  temperature (observed (Bench.sample_at 5000)) = F32.of_Z 21.
Proof. vm_compute. reflexivity. Qed.

(** A report that fits, and a report cut at 159 bytes. *)
Example report_fits :
  option_map String.length
    (weather_report_text Bench.platform "Hello! " Bench.idle)
  = Some 96%nat.
Proof. vm_compute. reflexivity. Qed.

Example report_cut :
  option_map String.length
    (weather_report_text Bench.platform Bench.long_intro Bench.idle)
  = Some 159%nat.
Proof. vm_compute. reflexivity. Qed.

(** A day index outside the table of names: the read is out of bounds, and
    the embedding gives it no result. *)
Example report_bad_day :
  weather_report_text Bench.platform "Hello! "
    (set_last_observation
       (mkObs F32.zero F32.zero F32.zero 7 0 0 0 0) Bench.idle)
  = None.
Proof. vm_compute. reflexivity. Qed.

(** An alarm passed by more than the window stays unrung. *)
Example alarm_missed :
  option_map (fun r => (rang (next_alarm (snd r)), sends (log (snd r))))
    (make_observation Bench.platform (Bench.sample_at 7000) Bench.armed)
  = Some (false, 0%nat).
Proof. vm_compute. reflexivity. Qed.

(** * Further properties *)

(** ** The outcomes of a sample *)

Lemma rings_spec (a : Alarm) (e : Z) :
  I32.in_range (timestamp a + ALARM_WINDOW) ->
  rings a e = true
  <-> (rang a = false /\ timestamp a < e < timestamp a + 360).
Proof.
  intros Hr. unfold rings.
  rewrite (I32_add_small _ _ Hr), ALARM_WINDOW_value.
  destruct (rang a); cbn [negb andb].
  - split; [discriminate | intros [H _]; discriminate].
  - rewrite andb_true_iff, !Z.gtb_lt. split.
    + intros [H1 H2]. split; [reflexivity | lia].
    + intros [_ H]. lia.
Qed.

(** The alarm test on [int32_t] values: the alarm is unrung, the epoch is
    past the timestamp by less than 360 seconds, and the end of the window
    is an [int32_t] value (otherwise the sum wraps below every epoch past
    the timestamp). *)
Lemma rings_int32 (a : Alarm) (e : Z) :
  I32.in_range (timestamp a) ->
  I32.in_range e ->
  rings a e = true
  <-> (rang a = false
       /\ timestamp a < e < timestamp a + 360
       /\ timestamp a + 360 <= I32.max_signed).
Proof.
  intros Ht He.
  destruct (Z_le_gt_dec (timestamp a + 360) I32.max_signed) as [Hfit|Hover].
  - assert (Hr : I32.in_range (timestamp a + ALARM_WINDOW)).
    { rewrite ALARM_WINDOW_value.
      unfold I32.in_range, I32.min_signed, I32.max_signed in *. lia. }
    rewrite (rings_spec a e Hr). tauto.
  - split; [|intros [_ [_ H]]; lia].
    unfold rings. rewrite ALARM_WINDOW_value. unfold I32.add.
    rewrite I32_wrap_above
      by (unfold I32.in_range, I32.min_signed, I32.max_signed in *; lia).
    intros H. apply andb_true_iff in H. destruct H as [_ H].
    apply andb_true_iff in H. destruct H as [H1 H2].
    apply Z.gtb_lt in H1. apply Z.gtb_lt in H2.
    unfold I32.in_range, I32.min_signed, I32.max_signed in *. lia.
Qed.

Lemma some_state_eq {A : Type} (a b : A) (st st' : Station) :
  Some (a, st) = Some (b, st') -> st = st'.
Proof. intros H. congruence. Qed.

Section SampleOutcomes.

Context (P : Platform).

(** A sample ends in one of three states: the fault, the observation
    stored, or the observation stored and the alarm fired. *)
Lemma make_observation_cases (s : Sample) (st st' : Station) :
  make_observation P s st = Some (tt, st') ->
  (sensors_ok s = false /\ st' = sensor_fault_outcome st)
  \/ (sensors_ok s = true
      /\ rings (next_alarm st) (epoch (observed s)) = false
      /\ st' = set_last_observation (observed s) st)
  \/ (sensors_ok s = true
      /\ rings (next_alarm st) (epoch (observed s)) = true
      /\ exists w,
           weather_report_text P ("Daily Report!" ++ LF) (ringing s st)
           = Some w
           /\ st' = fired P (ringing s st) w).
Proof.
  change (epoch (observed s)) with (I32.wrap (ntp_epoch s)).
  destruct (sensors_ok s) eqn:Hok.
  - rewrite make_observation_ok by exact Hok.
    destruct (rings (next_alarm st) (I32.wrap (ntp_epoch s))) eqn:Hr.
    + rewrite handle_alarm_run.
      destruct (weather_report_text P ("Daily Report!" ++ LF) (ringing s st))
        as [w|]; cbn [option_map]; [|discriminate].
      intros H. apply some_state_eq in H. right. right.
      repeat split. exists w. split; [reflexivity | symmetry; exact H].
    + intros H. apply some_state_eq in H. right. left.
      repeat split. symmetry. exact H.
  - rewrite make_observation_fault by exact Hok.
    intros H. apply some_state_eq in H. left. split; [reflexivity|].
    symmetry. exact H.
Qed.

Lemma make_observation_rings (s : Sample) (st : Station) :
  sensors_ok s = true ->
  rings (next_alarm st) (epoch (observed s)) = true ->
  0 <= day (observed s) < 7 ->
  exists w,
    weather_report_text P ("Daily Report!" ++ LF) (ringing s st) = Some w
    /\ make_observation P s st = Some (tt, fired P (ringing s st) w).
Proof.
  intros Hok Hr Hd.
  destruct (weather_report_text_some P ("Daily Report!" ++ LF) (ringing s st))
    as [w Hw]; [exact Hd|].
  exists w. split; [exact Hw|].
  rewrite make_observation_ok by exact Hok.
  change (I32.wrap (ntp_epoch s)) with (epoch (observed s)).
  rewrite Hr, handle_alarm_run, Hw. reflexivity.
Qed.

(** X1: for an [int32_t] alarm timestamp, a successful sample that does not
    ring the alarm (the alarm is rung already, or the epoch is not past the
    timestamp, or it is past it by the whole window of 360 seconds or more,
    or the end of the window is beyond the [int32_t] range) stores the
    observation and does nothing else: no print, no publication, no
    message, the alarm as it was. *)
Theorem sample_without_ring (s : Sample) (st : Station) :
  sensors_ok s = true ->
  I32.in_range (timestamp (next_alarm st)) ->
  rang (next_alarm st) = true
  \/ epoch (observed s) <= timestamp (next_alarm st)
  \/ timestamp (next_alarm st) + 2 * (RECHECK_WEATHER_INTERVAL / 1000)
     <= epoch (observed s)
  \/ I32.max_signed
     < timestamp (next_alarm st) + 2 * (RECHECK_WEATHER_INTERVAL / 1000) ->
  make_observation P s st
  = Some (tt, set_last_observation (observed s) st).
Proof.
  intros Hok Ht Hno.
  change (2 * (RECHECK_WEATHER_INTERVAL / 1000)) with 360 in Hno.
  rewrite make_observation_ok by exact Hok.
  change (I32.wrap (ntp_epoch s)) with (epoch (observed s)).
  destruct (rings (next_alarm st) (epoch (observed s))) eqn:E; [|reflexivity].
  apply (rings_int32 _ _ Ht) in E; [|apply I32_wrap_range].
  destruct E as [Hf [Hw Hfit]].
  destruct Hno as [Hr | [Hle | [Hge | Hover]]]; [congruence | lia | lia | lia].
Qed.

(** X2: for an [int32_t] alarm timestamp [T], a sample at the epoch [E] that
    returns sends exactly one message and publishes exactly one document
    when the readings pass the sensor test, the alarm is unrung,
    [T < E < T + 360] and [T + 360] is at most 2147483647; otherwise it
    sends and publishes nothing. *)
Theorem sample_message_count (s : Sample) (st st' : Station) :
  I32.in_range (timestamp (next_alarm st)) ->
  make_observation P s st = Some (tt, st') ->
  (sensors_ok s = true
   /\ rang (next_alarm st) = false
   /\ timestamp (next_alarm st) < epoch (observed s)
      < timestamp (next_alarm st) + 360
   /\ timestamp (next_alarm st) + 360 <= I32.max_signed ->
   sends (log st') = (sends (log st) + 1)%nat
   /\ publishes (log st') = (publishes (log st) + 1)%nat)
  /\ (~ (sensors_ok s = true
         /\ rang (next_alarm st) = false
         /\ timestamp (next_alarm st) < epoch (observed s)
            < timestamp (next_alarm st) + 360
         /\ timestamp (next_alarm st) + 360 <= I32.max_signed) ->
      sends (log st') = sends (log st)
      /\ publishes (log st') = publishes (log st)).
Proof.
  intros Ht H.
  pose proof (rings_int32 (next_alarm st) (epoch (observed s)) Ht
                (I32_wrap_range (ntp_epoch s))) as Hrings.
  apply make_observation_cases in H.
  destruct H as [[Hok ->] | [[Hok [Hr ->]] | [Hok [Hr [w [_ ->]]]]]].
  - split.
    + intros [Hok' _]. congruence.
    + intros _. cbn [sensor_fault_outcome log set_log]. split; count_log.
  - split.
    + intros [_ Hc]. apply Hrings in Hc. congruence.
    + intros _. split; reflexivity.
  - split.
    + intros _. cbn [fired ringing log set_log set_last_observation].
      rewrite <- app_assoc. split; count_log.
    + intros Hn. exfalso. apply Hn. split; [exact Hok|].
      apply Hrings. exact Hr.
Qed.

(** X3: a sample never changes the preferences of the station nor the time
    of the last weather check, never moves the timestamp of the alarm, and
    never resets a rung alarm. *)
Theorem sample_keeps_configuration (s : Sample) (st st' : Station) :
  make_observation P s st = Some (tt, st') ->
  configuration st' = configuration st
  /\ last_weather_check st' = last_weather_check st
  /\ timestamp (next_alarm st') = timestamp (next_alarm st)
  /\ (rang (next_alarm st) = true -> rang (next_alarm st') = true).
Proof.
  intros H. apply make_observation_cases in H.
  destruct H as [[Hok ->] | [[Hok [Hr ->]] | [Hok [Hr [w [_ ->]]]]]];
    repeat apply conj; try reflexivity; auto.
Qed.

(** X4: in a reachable state whose alarm is disabled (timestamp 0), no sample
    fires: every sample returns, leaves the alarm as it is, and neither
    sends nor publishes. *)
Theorem disabled_alarm_never_fires (s : Sample) (st : Station) :
  reachable P st ->
  timestamp (next_alarm st) = 0 ->
  exists st',
    make_observation P s st = Some (tt, st')
    /\ next_alarm st' = next_alarm st
    /\ sends (log st') = sends (log st)
    /\ publishes (log st') = publishes (log st).
Proof.
  intros Hr H0.
  pose proof (reachable_alarm_inv P st Hr H0) as Hrang.
  destruct (rung_make_observation P (next_alarm st) (sends (log st))
              (publishes (log st)) s Hrang st
              (conj eq_refl (conj eq_refl eq_refl)))
    as [[] [st' [Hm [Ha [Hs Hp]]]]].
  exists st'. auto.
Qed.

(** X5: an alarm whose window was missed never rings later: from an unrung
    alarm at [T], every run of samples whose epochs are at [T + 360] or
    later returns with the alarm still unrung at [T], nothing sent and
    nothing published. *)
Theorem missed_alarm_stays_unrung (l : list Sample) (st : Station) :
  rang (next_alarm st) = false ->
  I32.in_range (timestamp (next_alarm st) + ALARM_WINDOW) ->
  Forall (fun s => timestamp (next_alarm st) + 360 <= epoch (observed s)) l ->
  exists st',
    run_samples P l st = Some (tt, st')
    /\ next_alarm st' = next_alarm st
    /\ sends (log st') = sends (log st)
    /\ publishes (log st') = publishes (log st).
Proof.
  intros Hf Hr Hall. revert st Hf Hr Hall.
  induction l as [|s l IH]; intros st Hf Hr Hall; cbn [run_samples].
  - exists st. auto.
  - inversion Hall as [|s0 l0 Hs Hl]; subst.
    unfold bind.
    assert (Hstep : exists st1,
               make_observation P s st = Some (tt, st1)
               /\ next_alarm st1 = next_alarm st
               /\ sends (log st1) = sends (log st)
               /\ publishes (log st1) = publishes (log st)).
    { destruct (sensors_ok s) eqn:Hok.
      - exists (set_last_observation (observed s) st).
        split; [|auto].
        rewrite make_observation_ok by exact Hok.
        change (I32.wrap (ntp_epoch s)) with (epoch (observed s)).
        destruct (rings (next_alarm st) (epoch (observed s))) eqn:E;
          [|reflexivity].
        apply (rings_spec _ _ Hr) in E. lia.
      - exists (sensor_fault_outcome st).
        rewrite make_observation_fault by exact Hok.
        cbn [sensor_fault_outcome log set_log next_alarm].
        repeat apply conj; try reflexivity; count_log. }
    destruct Hstep as [st1 [-> [Ha [Hs1 Hp1]]]].
    destruct (IH st1) as [st' [Hrun [Ha' [Hs' Hp']]]].
    + rewrite Ha. exact Hf.
    + rewrite Ha. exact Hr.
    + rewrite Ha. exact Hl.
    + exists st'. rewrite Hrun. repeat apply conj; congruence.
Qed.

End SampleOutcomes.

(** ** Arming, ringing and arming again *)

Lemma Z_gtb_false (a b : Z) : a <= b -> (a >? b) = false.
Proof. intros H. rewrite Z.gtb_ltb. apply Z.ltb_ge. exact H. Qed.

Lemma last_published_app (l l' : list Event) :
  last_published (l ++ l')
  = match last_published l' with
    | Some p => Some p
    | None => last_published l
    end.
Proof.
  induction l as [|e l IH]; cbn [app last_published].
  - destruct (last_published l'); reflexivity.
  - rewrite IH. destruct (last_published l'); reflexivity.
Qed.

(** X6: for [T <> 0] different from the current timestamp and not before the
    epoch of the last observation (equal to it included),
    [update_alarm T] arms the alarm, with [rang] false and the timestamp
    [T], prints its three items on the serial console, and changes nothing
    else: no other field, no other call on a collaborator. *)
Theorem update_alarm_future_arms (T : Z) (st : Station) :
  T <> 0 ->
  T <> timestamp (next_alarm st) ->
  epoch (last_observation st) <= T ->
  update_alarm T st
  = Some (tt,
          set_log
            (log st ++ [Serial (SStr "Alarm updated to: ");
                        Serial (SInt T);
                        Serial (SStr CRLF)])
            (set_next_alarm (mkAlarm T false) st)).
Proof.
  intros H0 Hne Hle.
  rewrite update_alarm_changed by congruence.
  unfold alarm_updated.
  replace ((epoch (last_observation st) >? T) || (T =? 0)) with false;
    [reflexivity|].
  symmetry. apply orb_false_iff. split.
  - apply Z_gtb_false. exact Hle.
  - apply Z.eqb_neq. exact H0.
Qed.

Section AlarmCycle.

Context (P : Platform).

(** X7: setting an alarm and sampling compose: after [update_alarm T] with
    [T] a new, non-zero timestamp not before the last observation and with
    [T + 360] in the [int32_t] range, a sample with good readings, a day
    index of 0 to 6 and an epoch [E] with [T < E < T + 360] rings it, with
    one message and one publication. *)
Theorem arm_then_sample_rings (T : Z) (s : Sample) (st : Station) :
  T <> 0 ->
  T <> timestamp (next_alarm st) ->
  epoch (last_observation st) <= T ->
  sensors_ok s = true ->
  I32.in_range (T + ALARM_WINDOW) ->
  T < epoch (observed s) < T + 360 ->
  0 <= day (observed s) < 7 ->
  exists st1 st2,
    update_alarm T st = Some (tt, st1)
    /\ rang (next_alarm st1) = false
    /\ make_observation P s st1 = Some (tt, st2)
    /\ rang (next_alarm st2) = true
    /\ timestamp (next_alarm st2) = T
    /\ sends (log st2) = (sends (log st) + 1)%nat
    /\ publishes (log st2) = (publishes (log st) + 1)%nat.
Proof.
  intros H0 Hne Hle Hok Hr Hwin Hd.
  assert (Hrang : rang (next_alarm (alarm_updated T st)) = false).
  { cbn [alarm_updated next_alarm set_log set_next_alarm rang].
    apply orb_false_iff. split.
    - apply Z_gtb_false. exact Hle.
    - apply Z.eqb_neq. exact H0. }
  assert (Hrings : rings (next_alarm (alarm_updated T st)) (epoch (observed s))
                   = true).
  { apply rings_spec; [exact Hr|]. split; [exact Hrang | exact Hwin]. }
  destruct (make_observation_rings P s (alarm_updated T st) Hok Hrings Hd)
    as [w [_ Hm]].
  exists (alarm_updated T st), (fired P (ringing s (alarm_updated T st)) w).
  rewrite update_alarm_changed by congruence.
  rewrite Hm.
  repeat apply conj; try reflexivity; try exact Hrang.
  - cbn [fired ringing alarm_updated log set_log set_last_observation
         set_next_alarm].
    rewrite <- !app_assoc. count_log.
  - cbn [fired ringing alarm_updated log set_log set_last_observation
         set_next_alarm].
    rewrite <- !app_assoc. count_log.
Qed.

(** X8: the daily cycle closes: when a sample with a day index of 0 to 6
    rings an armed alarm at [T > 0], with [T + 86400] at most 2147483647,
    the last payload published is what [printTo] leaves of the desired
    document with the alarm [T + 86400], and applying that timestamp with
    [update_alarm] arms the alarm again, for [T + 86400]. *)
Theorem ring_then_rearm (s : Sample) (st : Station) :
  Armed (next_alarm st) ->
  sensors_ok s = true ->
  timestamp (next_alarm st) + 86400 <= I32.max_signed ->
  timestamp (next_alarm st) < epoch (observed s)
    < timestamp (next_alarm st) + 360 ->
  0 <= day (observed s) < 7 ->
  exists st1 st2,
    make_observation P s st = Some (tt, st1)
    /\ rang (next_alarm st1) = true
    /\ last_published (log st1)
       = Some (json_printTo P
                 (desired_document (timestamp (next_alarm st) + 86400)
                    (unit_type st) (location_altitude st)
                    (time_zone_offset st) (twilio_device_number st)
                    (master_number st))
                 (maxMQTTpackageSize P))
    /\ shadow_field "desired" "alarm"
         (desired_document (timestamp (next_alarm st) + 86400)
            (unit_type st) (location_altitude st)
            (time_zone_offset st) (twilio_device_number st)
            (master_number st))
       = Some (JInt (timestamp (next_alarm st) + 86400))
    /\ update_alarm (timestamp (next_alarm st) + 86400) st1 = Some (tt, st2)
    /\ rang (next_alarm st2) = false
    /\ timestamp (next_alarm st2) = timestamp (next_alarm st) + 86400.
Proof.
  intros [Hpos Hf] Hok Hmax Hwin Hd.
  assert (Hr : I32.in_range (timestamp (next_alarm st) + ALARM_WINDOW)).
  { rewrite ALARM_WINDOW_value.
    unfold I32.in_range, I32.min_signed, I32.max_signed in *. lia. }
  assert (Hrings : rings (next_alarm st) (epoch (observed s)) = true).
  { apply rings_spec; [exact Hr|]. split; [exact Hf | exact Hwin]. }
  assert (Hadd : I32.add (timestamp (next_alarm st)) 86400
                 = timestamp (next_alarm st) + 86400).
  { apply I32_add_small.
    unfold I32.in_range, I32.min_signed, I32.max_signed in *. lia. }
  destruct (make_observation_rings P s st Hok Hrings Hd) as [w [_ Hm]].
  set (st1 := fired P (ringing s st) w) in *.
  assert (Hne : timestamp (next_alarm st1)
                <> timestamp (next_alarm st) + 86400).
  { subst st1. cbn [fired next_alarm set_log set_rang set_next_alarm
                      timestamp ringing set_last_observation]. lia. }
  exists st1, (alarm_updated (timestamp (next_alarm st) + 86400) st1).
  rewrite Hm. rewrite (update_alarm_changed _ st1 Hne).
  repeat apply conj; try reflexivity.
  - subst st1. cbn [fired log set_log].
    rewrite last_published_app.
    cbn [last_published ringing next_alarm set_log set_last_observation
         unit_type location_altitude time_zone_offset twilio_device_number
         master_number].
    rewrite Hadd. reflexivity.
  - subst st1.
    cbn [alarm_updated next_alarm set_log set_next_alarm rang fired
         last_observation set_rang ringing set_last_observation].
    cbn [observed epoch] in Hwin |- *.
    apply orb_false_iff. split.
    + apply Z_gtb_false. lia.
    + apply Z.eqb_neq. lia.
Qed.

End AlarmCycle.

(** ** The heartbeat *)

Section Heartbeat.

Context (P : Platform).

Lemma yield_idle (t : Tick) (st : Station) :
  (tick_millis t >? U64.add (last_weather_check st) RECHECK_WEATHER_INTERVAL)
  = false ->
  yield P t st = Some (tt, set_log (log st ++ [NtpUpdate]) st).
Proof.
  intros H. unfold yield, bind, emit, modify, get.
  cbn [last_weather_check set_log]. rewrite H. reflexivity.
Qed.

Lemma yield_due_split (t : Tick) (st : Station) :
  (tick_millis t >? U64.add (last_weather_check st) RECHECK_WEATHER_INTERVAL)
  = true ->
  yield P t st
  = bind (make_observation P (tick_sample t)) (fun _ => after_sample P t)
      (sampling t st).
Proof.
  intros H. unfold yield.
  unfold bind at 1. unfold emit at 1. unfold modify at 1.
  unfold bind at 1. unfold get at 1.
  cbn [last_weather_check set_log]. rewrite H.
  unfold bind at 1. unfold print_to_serial at 1, emit at 1, modify at 1.
  unfold bind at 1. unfold print_to_serial at 1, emit at 1, modify at 1.
  unfold bind at 1. unfold print_to_serial at 1, emit at 1, modify at 1.
  unfold bind at 1. unfold modify at 1.
  unfold sampling, set_last_weather_check, set_log.
  cbn [last_observation last_weather_check next_alarm location_altitude
       time_zone_offset master_number twilio_device_number unit_type
       shadow_topic twilio_topic log].
  rewrite <- !app_assoc. cbn [app]. unfold after_sample. reflexivity.
Qed.

Lemma always_after_sample (I : Station -> Prop) (t : Tick) :
  ignores_serial I -> always I (after_sample P t).
Proof.
  intros HI. unfold after_sample. step_always HI.
  apply always_print_observation. exact HI.
Qed.

(** A sample does the same to two states that differ in the log and the
    time of the last check. *)
Lemma make_observation_frame (s : Sample) (st st2 st1 : Station) :
  same_station st st2 ->
  make_observation P s st = Some (tt, st1) ->
  exists st3,
    make_observation P s st2 = Some (tt, st3)
    /\ same_station st1 st3
    /\ last_weather_check st3 = last_weather_check st2
    /\ (sends (log st3) + sends (log st)
        = sends (log st1) + sends (log st2))%nat
    /\ (publishes (log st3) + publishes (log st)
        = publishes (log st1) + publishes (log st2))%nat.
Proof.
  intros [Ho [Ha Hc]] H.
  assert (Hfields :
            location_altitude st2 = location_altitude st
            /\ time_zone_offset st2 = time_zone_offset st
            /\ master_number st2 = master_number st
            /\ twilio_device_number st2 = twilio_device_number st
            /\ unit_type st2 = unit_type st
            /\ shadow_topic st2 = shadow_topic st
            /\ twilio_topic st2 = twilio_topic st).
  { unfold configuration in Hc. injection Hc as -> -> -> -> -> -> ->.
    repeat split. }
  destruct Hfields as [Halt [Htz [Hmn [Htn [Hu [Hst Htt]]]]]].
  apply make_observation_cases in H.
  destruct H as [[Hok ->] | [[Hok [Hr ->]] | [Hok [Hr [w [Hw ->]]]]]].
  - exists (sensor_fault_outcome st2).
    rewrite make_observation_fault by exact Hok.
    unfold same_station, configuration.
    cbn [sensor_fault_outcome set_log last_observation next_alarm log
         location_altitude time_zone_offset master_number
         twilio_device_number unit_type shadow_topic twilio_topic
         last_weather_check].
    rewrite Ho, Ha, Halt, Htz, Hmn, Htn, Hu, Hst, Htt.
    repeat apply conj; try reflexivity; count_log.
  - exists (set_last_observation (observed s) st2).
    rewrite make_observation_ok by exact Hok.
    change (I32.wrap (ntp_epoch s)) with (epoch (observed s)).
    rewrite Ha, Hr.
    unfold same_station, configuration.
    cbn [set_last_observation last_observation next_alarm log
         location_altitude time_zone_offset master_number
         twilio_device_number unit_type shadow_topic twilio_topic
         last_weather_check].
    rewrite Ha, Halt, Htz, Hmn, Htn, Hu, Hst, Htt.
    repeat apply conj; try reflexivity; lia.
  - exists (fired P (ringing s st2) w).
    rewrite make_observation_ok by exact Hok.
    change (I32.wrap (ntp_epoch s)) with (epoch (observed s)).
    rewrite Ha, Hr, handle_alarm_run.
    rewrite (weather_report_text_frame P _ (ringing s st) (ringing s st2))
      by (cbn [ringing set_log set_last_observation last_observation
               unit_type location_altitude]; auto).
    rewrite Hw. cbn [option_map].
    unfold same_station, configuration.
    cbn [fired ringing set_log set_rang set_next_alarm set_last_observation
         last_observation next_alarm log location_altitude time_zone_offset
         master_number twilio_device_number unit_type shadow_topic
         twilio_topic last_weather_check timestamp].
    rewrite Ha, Halt, Htz, Hmn, Htn, Hu, Hst, Htt.
    repeat apply conj; try reflexivity; rewrite <- !app_assoc; count_log.
Qed.

(** A heartbeat before the interval has elapsed ([millis()] not above
    the time of the last check plus 180000, the test being strict) only
    polls the NTP client: it takes no sample and changes no field. *)
Lemma yield_waits (t : Tick) (st : Station) :
  tick_millis t <= U64.add (last_weather_check st) RECHECK_WEATHER_INTERVAL ->
  yield P t st = Some (tt, set_log (log st ++ [NtpUpdate]) st).
Proof.
  intros H. apply yield_idle. apply Z_gtb_false. exact H.
Qed.

(** X9: once the time of the last check is within 180000 ms of the end of
    the 32-bit range of [millis()], no value of [millis()] makes the
    heartbeat sample: every run of heartbeats returns with the observation,
    the alarm and the time of the last check as they were, and nothing sent
    or published. *)
Theorem yield_stalls_after_rollover (l : list Tick) (st : Station) :
  2 ^ 32 - 1 <= last_weather_check st + RECHECK_WEATHER_INTERVAL < 2 ^ 64 ->
  Forall (fun t => 0 <= tick_millis t < 2 ^ 32) l ->
  exists st',
    run_ticks P l st = Some (tt, st')
    /\ last_observation st' = last_observation st
    /\ next_alarm st' = next_alarm st
    /\ last_weather_check st' = last_weather_check st
    /\ sends (log st') = sends (log st)
    /\ publishes (log st') = publishes (log st).
Proof.
  intros Hw Hall. revert st Hw.
  induction Hall as [|t l Ht Hl IH]; intros st Hw; cbn [run_ticks].
  - exists st. repeat apply conj; reflexivity.
  - unfold bind. rewrite yield_idle.
    + destruct (IH (set_log (log st ++ [NtpUpdate]) st) Hw)
        as [st' [Hrun [Ho [Ha [Hc [Hs Hp]]]]]].
      exists st'. rewrite Hrun.
      repeat apply conj; try assumption; try reflexivity.
      * rewrite Hs. cbn [log set_log]. count_log.
      * rewrite Hp. cbn [log set_log]. count_log.
    + apply Z_gtb_false. unfold U64.add, U64.wrap.
      assert (Hr : 0 <= last_weather_check st + RECHECK_WEATHER_INTERVAL).
      { assert (0 < 2 ^ 32 - 1) by reflexivity. lia. }
      rewrite Z.mod_small by lia. lia.
Qed.

(** X10: a due heartbeat is a sample and bookkeeping: it returns whenever
    the sample returns, stores the second reading of [millis()] as the time
    of the last check, and leaves the observation, the alarm, the
    preferences and the counts of messages and publications that the
    sample alone would leave. *)
Theorem yield_due_samples (t : Tick) (st st1 : Station) :
  U64.add (last_weather_check st) RECHECK_WEATHER_INTERVAL < tick_millis t ->
  make_observation P (tick_sample t) st = Some (tt, st1) ->
  exists st',
    yield P t st = Some (tt, st')
    /\ last_weather_check st' = tick_millis_again t
    /\ last_observation st' = last_observation st1
    /\ next_alarm st' = next_alarm st1
    /\ configuration st' = configuration st1
    /\ sends (log st') = sends (log st1)
    /\ publishes (log st') = publishes (log st1).
Proof.
  intros Hdue Hm.
  assert (Hgate : (tick_millis t
                   >? U64.add (last_weather_check st) RECHECK_WEATHER_INTERVAL)
                  = true) by (apply Z.gtb_lt; exact Hdue).
  assert (Hsame : same_station st (sampling t st))
    by (repeat split).
  destruct (make_observation_frame (tick_sample t) st (sampling t st) st1
              Hsame Hm)
    as [st3 [Hm3 [[Ho [Ha Hc]] [Hlwc [Hs Hp]]]]].
  set (I := fun x : Station =>
              last_weather_check x = tick_millis_again t
              /\ last_observation x = last_observation st1
              /\ next_alarm x = next_alarm st1
              /\ configuration x = configuration st1
              /\ sends (log x) = sends (log st1)
              /\ publishes (log x) = publishes (log st1)).
  assert (HI : ignores_serial I).
  { intros x e Hse Hpe [H1 [H2 [H3 [H4 [H5 H6]]]]]. unfold I.
    cbn [set_log last_weather_check last_observation next_alarm log].
    repeat apply conj; try assumption.
    - rewrite sends_app, H5. unfold sends at 2. cbn [filter].
      rewrite Hse. cbn [length]. lia.
    - rewrite publishes_app, H6. unfold publishes at 2. cbn [filter].
      rewrite Hpe. cbn [length]. lia. }
  assert (H3 : I st3).
  { unfold I. repeat apply conj; try assumption.
    - revert Hs. cbn [sampling set_last_weather_check set_log log].
      rewrite sends_app.
      change (sends [NtpUpdate; Serial _; Serial _; Serial _]) with 0%nat.
      lia.
    - revert Hp. cbn [sampling set_last_weather_check set_log log].
      rewrite publishes_app.
      change (publishes [NtpUpdate; Serial _; Serial _; Serial _]) with 0%nat.
      lia. }
  destruct (always_after_sample I t HI st3 H3) as [[] [st' [Hrun HI']]].
  exists st'. rewrite (yield_due_split t st Hgate).
  unfold bind. rewrite Hm3. split; [exact Hrun | exact HI'].
Qed.

End Heartbeat.

(** ** The text of the report *)

Lemma take_app_ge (n : nat) (a b : string) :
  (n <= String.length a)%nat -> take n (a ++ b)%string = take n a.
Proof.
  revert a. induction n as [|n IH]; intros [|c r] H; cbn in *;
    try reflexivity; try lia.
  rewrite IH by lia. reflexivity.
Qed.

Lemma take_app_le (n : nat) (a b : string) :
  (String.length a <= n)%nat ->
  take n (a ++ b)%string = (a ++ take (n - String.length a) b)%string.
Proof.
  revert n. induction a as [|c r IH]; intros n H; cbn in *.
  - rewrite Nat.sub_0_r. reflexivity.
  - destruct n as [|n]; [lia|]. cbn. rewrite IH by lia. reflexivity.
Qed.

Lemma nul_free_cons (c : ascii) (r : string) :
  nul_free (String c r) -> Ascii.eqb c Ascii.zero = false /\ nul_free r.
Proof.
  unfold nul_free. cbn [c_str].
  destruct (Ascii.eqb c Ascii.zero); [discriminate|].
  intros H. split; [reflexivity|]. congruence.
Qed.

Lemma c_str_app (a b : string) :
  nul_free a -> c_str (a ++ b)%string = (a ++ c_str b)%string.
Proof.
  induction a as [|c r IH]; intros H; [reflexivity|].
  apply nul_free_cons in H. destruct H as [Hc Hr].
  cbn [append c_str]. rewrite Hc, (IH Hr). reflexivity.
Qed.

Lemma c_str_take (n : nat) (a : string) :
  nul_free a -> c_str (take n a) = take n a.
Proof.
  revert a. induction n as [|n IH]; intros [|c r] H; try reflexivity.
  apply nul_free_cons in H. destruct H as [Hc Hr].
  cbn [take c_str]. rewrite Hc, (IH r Hr). reflexivity.
Qed.

Lemma vformat_report_intro (bad : string) (intro day_name : string)
    (h m s : Z) (t fc hum p pc im : string) :
  exists rest,
    vformat bad REPORT_FORMAT
      [PfStr intro; PfStr day_name; PfInt h; PfInt m; PfInt s;
       PfStr t; PfStr fc; PfStr hum; PfStr p; PfStr pc; PfStr im]
    = Some (c_str intro ++ rest)%string.
Proof.
  eexists. unfold REPORT_FORMAT.
  cbn [vformat Ascii.eqb Bool.eqb option_map]. reflexivity.
Qed.

(** X11: [int_to_day] names exactly the indices 0 to 6; every name is four
    bytes long and two indices never share a name. *)
Theorem int_to_day_bounds (d : Z) :
  ((exists name, int_to_day d = Some name) <-> 0 <= d < 7)
  /\ (forall name, int_to_day d = Some name -> String.length name = 4%nat)
  /\ (forall d' name,
        int_to_day d = Some name -> int_to_day d' = Some name -> d' = d).
Proof.
  assert (Hcases : forall x name,
             int_to_day x = Some name ->
             (x = 0 /\ name = "Sun.") \/ (x = 1 /\ name = "Mon.")
             \/ (x = 2 /\ name = "Tue.") \/ (x = 3 /\ name = "Wed.")
             \/ (x = 4 /\ name = "Thu.") \/ (x = 5 /\ name = "Fri.")
             \/ (x = 6 /\ name = "Sat.")).
  { intros x name H. pose proof (int_to_day_valid x name H) as Hv.
    assert (Hx : x = 0 \/ x = 1 \/ x = 2 \/ x = 3 \/ x = 4 \/ x = 5 \/ x = 6)
      by lia.
    destruct Hx as [->|[->|[->|[->|[->|[->| ->]]]]]];
      cbn in H; injection H as <-; tauto. }
  split; [|split].
  - split.
    + intros [name H]. exact (int_to_day_valid d name H).
    + apply int_to_day_some.
  - intros name H.
    destruct (Hcases d name H)
      as [[_ ->]|[[_ ->]|[[_ ->]|[[_ ->]|[[_ ->]|[[_ ->]|[_ ->]]]]]]];
      reflexivity.
  - intros d' name H H'.
    destruct (Hcases d name H)
      as [[-> ->]|[[-> ->]|[[-> ->]|[[-> ->]|[[-> ->]|[[-> ->]|[-> ->]]]]]]];
      destruct (Hcases d' _ H')
        as [[-> E]|[[-> E]|[[-> E]|[[-> E]|[[-> E]|[[-> E]|[-> E]]]]]]];
      first [reflexivity | discriminate E].
Qed.

Section ReportText.

Context (P : Platform).

(** X13: the report begins with the intro: an intro without NUL bytes of at
    most 159 bytes is a prefix of the report, and one of 159 bytes or more
    leaves no room for the conditions, the report being its first 159
    bytes. *)
Theorem weather_report_intro (intro : string) (st : Station) :
  nul_free intro ->
  0 <= day (last_observation st) < 7 ->
  exists w,
    weather_report_text P intro st = Some w
    /\ ((String.length intro <= 159)%nat ->
        exists tail, w = (intro ++ tail)%string)
    /\ ((159 <= String.length intro)%nat -> w = take 159 intro).
Proof.
  intros Hn Hd. unfold weather_report_text.
  destruct (int_to_day_some _ Hd) as [name ->].
  unfold snprintf.
  destruct (vformat_report_intro (printf_bad_directive P) intro name
              (hour (last_observation st)) (minute (last_observation st))
              (second (last_observation st))
              (r_temperature (report_locals P st))
              (r_f_or_c (report_locals P st))
              (r_humidity (report_locals P st))
              (r_pressure (report_locals P st))
              (r_pressure_conv (report_locals P st))
              (r_in_or_mm (report_locals P st))) as [rest ->].
  cbn [option_map]. change (Z.to_nat (160 - 1)) with 159%nat.
  unfold nul_free in Hn. rewrite Hn.
  eexists. split; [reflexivity|]. split.
  - intros Hle. rewrite take_app_le by exact Hle.
    rewrite c_str_app by exact Hn. eexists. reflexivity.
  - intros Hge. rewrite take_app_ge by exact Hge.
    apply c_str_take. exact Hn.
Qed.

End ReportText.

(** ** The setters and the reported shadow *)

Lemma update_units_run (units_in : string) (st : Station) :
  update_units units_in st
  = Some (tt, if String.eqb units_in "imperial" || String.eqb units_in "metric"
              then units_taken units_in st
              else units_refused st).
Proof.
  unfold update_units.
  destruct (String.eqb units_in "imperial" || String.eqb units_in "metric").
  - run. unfold units_taken, set_log, set_unit_type; simpl.
    flatten_log. reflexivity.
  - reflexivity.
Qed.

Lemma update_alt_run (alt_in : Z) (st : Station) :
  update_alt alt_in st = Some (tt, alt_updated alt_in st).
Proof.
  unfold update_alt. run.
  unfold alt_updated, set_log, set_location_altitude; simpl.
  flatten_log. reflexivity.
Qed.

Lemma update_tz_run (tz_in : Z) (st : Station) :
  update_tz tz_in st = Some (tt, tz_updated tz_in st).
Proof.
  unfold update_tz. run.
  unfold tz_updated, set_log, set_time_zone_offset; simpl.
  flatten_log. reflexivity.
Qed.

Lemma update_tnum_run (tnum_in : string) (st : Station) :
  update_tnum tnum_in st = Some (tt, tnum_updated tnum_in st).
Proof.
  unfold update_tnum. run.
  unfold tnum_updated, set_log, set_twilio_device_number; simpl.
  flatten_log. reflexivity.
Qed.

Lemma update_mnum_run (mnum_in : string) (st : Station) :
  update_mnum mnum_in st = Some (tt, mnum_updated mnum_in st).
Proof.
  unfold update_mnum. run.
  unfold mnum_updated, set_log, set_master_number; simpl.
  flatten_log. reflexivity.
Qed.

Lemma shadow_field_document (kind field : string) (alarm : Z)
    (units : string) (alt tz : Z) (t_num m_num : string) :
  shadow_field kind field
    (shadow_document kind alarm units alt tz t_num m_num)
  = assoc field
      [("alarm", JInt alarm); ("units", JStr units); ("alt", JInt alt);
       ("tz", JInt tz); ("t_num", JStr t_num); ("m_num", JStr m_num)].
Proof.
  unfold shadow_field, shadow_document, member.
  cbn [assoc]. rewrite String.eqb_refl.
  cbn [assoc]. rewrite String.eqb_refl. reflexivity.
Qed.

Section Shadow.

Context (P : Platform).

Lemma report_shadow_state_run (topic : string) (st : Station) :
  report_shadow_state P topic st
  = Some (tt, set_log (log st ++ [Serial (SStr (reported_buffer P st));
                                  Publish topic (reported_buffer P st)]) st).
Proof.
  unfold report_shadow_state. run. unfold reported_buffer, set_log; simpl.
  flatten_log. reflexivity.
Qed.

(** The report after a call that ended in [st1]. *)
Lemma reports_run (m : M unit) (topic : string) (st st1 : Station) :
  m st = Some (tt, st1) ->
  reports P topic m st (reported_document st1).
Proof.
  intros Hm. exists st1. eexists.
  split; [exact Hm|]. split; [reflexivity|].
  split; [apply report_shadow_state_run|].
  cbn [log set_log]. rewrite last_published_app. reflexivity.
Qed.

Lemma reports_document (m : M unit) (topic : string) (st st1 : Station)
    (doc : Json) :
  m st = Some (tt, st1) ->
  reports P topic m st doc ->
  doc = reported_document st1.
Proof.
  intros Hm [st1' [st2 [Hm' [Hd _]]]].
  rewrite Hm in Hm'. apply some_state_eq in Hm'. subst st1'. exact Hd.
Qed.

Ltac member_of_report :=
  unfold reported_document; rewrite shadow_field_document;
  cbn [assoc String.eqb Ascii.eqb Bool.eqb];
  cbn [alarm_updated alt_updated tz_updated tnum_updated mnum_updated
       units_taken units_refused set_log set_next_alarm
       set_location_altitude set_time_zone_offset set_twilio_device_number
       set_master_number set_unit_type next_alarm timestamp unit_type
       location_altitude time_zone_offset twilio_device_number
       master_number].

(** X14: what a setter stores is what the next shadow report assigns:
    [report_shadow_state] called after [update_alarm], [update_alt],
    [update_tz], [update_tnum] or [update_mnum] assigns the setter's member
    of the reported document the argument (the numbers as C strings), and
    after [update_units] the argument when that is "imperial" or "metric"
    and the previous unit type otherwise; the payload it publishes is what
    the JSON library leaves of that document in a [StaticJsonBuffer] and a
    text buffer of [maxMQTTpackageSize] bytes. *)
Theorem shadow_report_reflects_setters (topic : string) (st : Station) :
  (forall T,
     exists doc,
       reports P topic (update_alarm T) st doc
       /\ shadow_field "reported" "alarm" doc = Some (JInt T))
  /\ (forall z,
        exists doc,
          reports P topic (update_alt z) st doc
          /\ shadow_field "reported" "alt" doc = Some (JInt z))
  /\ (forall z,
        exists doc,
          reports P topic (update_tz z) st doc
          /\ shadow_field "reported" "tz" doc = Some (JInt z))
  /\ (forall n,
        exists doc,
          reports P topic (update_tnum n) st doc
          /\ shadow_field "reported" "t_num" doc = Some (JStr (c_str n)))
  /\ (forall n,
        exists doc,
          reports P topic (update_mnum n) st doc
          /\ shadow_field "reported" "m_num" doc = Some (JStr (c_str n)))
  /\ (forall u,
        exists doc,
          reports P topic (update_units u) st doc
          /\ shadow_field "reported" "units" doc
             = Some (JStr (if String.eqb u "imperial" || String.eqb u "metric"
                           then u else unit_type st))).
Proof.
  repeat apply conj.
  - intros T.
    destruct (Z.eq_dec (timestamp (next_alarm st)) T) as [He|Hne].
    + eexists. split; [exact (reports_run _ topic st st
                                (update_alarm_same T st He))|].
      member_of_report. rewrite He. reflexivity.
    + eexists. split; [exact (reports_run _ topic st _
                                (update_alarm_changed T st Hne))|].
      member_of_report. reflexivity.
  - intros z. eexists.
    split; [exact (reports_run _ topic st _ (update_alt_run z st))|].
    member_of_report. reflexivity.
  - intros z. eexists.
    split; [exact (reports_run _ topic st _ (update_tz_run z st))|].
    member_of_report. reflexivity.
  - intros n. eexists.
    split; [exact (reports_run _ topic st _ (update_tnum_run n st))|].
    member_of_report. reflexivity.
  - intros n. eexists.
    split; [exact (reports_run _ topic st _ (update_mnum_run n st))|].
    member_of_report. reflexivity.
  - intros u. eexists.
    split; [exact (reports_run _ topic st _ (update_units_run u st))|].
    destruct (String.eqb u "imperial" || String.eqb u "metric");
      member_of_report; reflexivity.
Qed.

(** X15: a setter changes one member of the reported document: the members
    [report_shadow_state] assigns after [update_alarm], [update_alt],
    [update_tz], [update_tnum], [update_mnum] or [update_units] agree with
    the members it assigns without the call ([doc0]), the setter's own
    apart.  (This is about the values assigned to the document; the
    payloads are what the JSON library leaves of them in
    [maxMQTTpackageSize] bytes.) *)
Theorem setters_touch_one_member (topic field : string) (st : Station)
    (doc0 : Json) :
  reports P topic (ret tt) st doc0 ->
  (forall T doc, field <> "alarm" ->
     reports P topic (update_alarm T) st doc ->
     shadow_field "reported" field doc = shadow_field "reported" field doc0)
  /\ (forall z doc, field <> "alt" ->
        reports P topic (update_alt z) st doc ->
        shadow_field "reported" field doc
        = shadow_field "reported" field doc0)
  /\ (forall z doc, field <> "tz" ->
        reports P topic (update_tz z) st doc ->
        shadow_field "reported" field doc
        = shadow_field "reported" field doc0)
  /\ (forall n doc, field <> "t_num" ->
        reports P topic (update_tnum n) st doc ->
        shadow_field "reported" field doc
        = shadow_field "reported" field doc0)
  /\ (forall n doc, field <> "m_num" ->
        reports P topic (update_mnum n) st doc ->
        shadow_field "reported" field doc
        = shadow_field "reported" field doc0)
  /\ (forall u doc, field <> "units" ->
        reports P topic (update_units u) st doc ->
        shadow_field "reported" field doc
        = shadow_field "reported" field doc0).
Proof.
  intros H0.
  assert (E0 : doc0 = reported_document st)
    by (apply (reports_document (ret tt) topic st st doc0 eq_refl H0)).
  subst doc0.
  assert (Hkey : forall k, field <> k -> String.eqb k field = false).
  { intros k Hk. apply String.eqb_neq. congruence. }
  repeat apply conj.
  - intros T doc Hf Hd.
    destruct (Z.eq_dec (timestamp (next_alarm st)) T) as [He|Hne].
    + rewrite (reports_document _ topic st st doc
                 (update_alarm_same T st He) Hd). reflexivity.
    + rewrite (reports_document _ topic st _ doc
                 (update_alarm_changed T st Hne) Hd).
      unfold reported_document. rewrite !shadow_field_document.
      cbn [assoc]. rewrite (Hkey "alarm" Hf). reflexivity.
  - intros z doc Hf Hd.
    rewrite (reports_document _ topic st _ doc (update_alt_run z st) Hd).
    unfold reported_document. rewrite !shadow_field_document.
    cbn [assoc]. rewrite (Hkey "alt" Hf). reflexivity.
  - intros z doc Hf Hd.
    rewrite (reports_document _ topic st _ doc (update_tz_run z st) Hd).
    unfold reported_document. rewrite !shadow_field_document.
    cbn [assoc]. rewrite (Hkey "tz" Hf). reflexivity.
  - intros n doc Hf Hd.
    rewrite (reports_document _ topic st _ doc (update_tnum_run n st) Hd).
    unfold reported_document. rewrite !shadow_field_document.
    cbn [assoc]. rewrite (Hkey "t_num" Hf). reflexivity.
  - intros n doc Hf Hd.
    rewrite (reports_document _ topic st _ doc (update_mnum_run n st) Hd).
    unfold reported_document. rewrite !shadow_field_document.
    cbn [assoc]. rewrite (Hkey "m_num" Hf). reflexivity.
  - intros u doc Hf Hd.
    rewrite (reports_document _ topic st _ doc (update_units_run u st) Hd).
    destruct (String.eqb u "imperial" || String.eqb u "metric");
      unfold reported_document; rewrite !shadow_field_document;
      cbn [assoc]; rewrite ?(Hkey "units" Hf); reflexivity.
Qed.

End Shadow.

(** ** What the calls never do *)

Lemma preserves_count (f : Event -> bool) (n : nat) (e : Event) :
  f e = false ->
  preserves (fun st => length (filter f (log st)) = n) (emit e).
Proof.
  intros He. apply preserves_modify. intros st H.
  cbn [log set_log]. rewrite filter_app, length_app. cbn [filter].
  rewrite He. cbn [length]. lia.
Qed.

(** The walk through a sequence of calls on the collaborators that keeps
    the count [f] of the log. *)
Ltac keep_count f :=
  repeat lazymatch goal with
    | |- preserves _ (bind _ _) => apply preserves_bind; [|intros ?]
    | |- preserves _ (if _ then _ else _) => apply preserves_if
    | |- preserves _ (ret _) => apply preserves_ret
    | |- preserves _ get => apply preserves_get
    | |- preserves _ (lift _) => apply preserves_lift
    | |- preserves _ (print_to_serial _) =>
        apply (preserves_count f); reflexivity
    | |- preserves _ (emit _) => apply (preserves_count f); reflexivity
    | |- preserves _ (modify _) =>
        apply preserves_modify; intros ? H; exact H
    end.

(** The walk that keeps a property of the fields other than the log. *)
Ltac keep_fields :=
  repeat lazymatch goal with
    | |- preserves _ (bind _ _) => apply preserves_bind; [|intros ?]
    | |- preserves _ (if _ then _ else _) => apply preserves_if
    | |- preserves _ (ret _) => apply preserves_ret
    | |- preserves _ get => apply preserves_get
    | |- preserves _ (lift _) => apply preserves_lift
    | |- preserves _ (print_to_serial _) =>
        apply preserves_modify; intros ? H; exact H
    | |- preserves _ (emit _) =>
        apply preserves_modify; intros ? H; exact H
    | |- preserves _ (modify _) =>
        apply preserves_modify; intros ? H; exact H
    end.

Section Never.

Context (P : Platform).

(** X16: only a sample sends a message: no other public call ([yield] and
    [make_observation] apart) changes the number of messages sent; and
    apart from the samples and the two shadow calls, no public call
    publishes. *)
Theorem only_samples_send (c : Call) (st st' : Station) :
  perform P c st = Some (tt, st') ->
  (samples c = false -> sends (log st') = sends (log st))
  /\ (publishing c = false -> publishes (log st') = publishes (log st)).
Proof.
  intros Hrun. split; intros Hc.
  - assert (Hk : preserves (fun x => sends (log x) = sends (log st))
                   (perform P c)).
    { destruct c; try discriminate Hc; cbn [perform];
        unfold get_weather_report, print_observation, update_alarm,
          update_units, update_alt, update_tz, update_tnum, update_mnum,
          report_shadow_state, update_shadow_state, sends;
        keep_count is_send. }
    exact (Hk st tt st' eq_refl Hrun).
  - assert (Hk : preserves (fun x => publishes (log x) = publishes (log st))
                   (perform P c)).
    { destruct c; try discriminate Hc; cbn [perform];
        unfold get_weather_report, print_observation, update_alarm,
          update_units, update_alt, update_tz, update_tnum, update_mnum,
          publishes;
        keep_count is_publish. }
    exact (Hk st tt st' eq_refl Hrun).
Qed.

Lemma units_kept_by_calls (u : string) (c : Call) :
  preserves (fun st => unit_type st = u \/ recognised_units (unit_type st))
    (perform P c).
Proof.
  destruct c; cbn [perform];
    try (unfold yield, make_observation, _handle_alarm, update_shadow_state,
           get_weather_report, print_observation, update_alarm, update_alt,
           update_tz, update_tnum, update_mnum, report_shadow_state;
         keep_fields; fail).
  intros st a st' H. rewrite update_units_run. intros E.
  apply some_state_eq in E. subst st'.
  destruct (String.eqb_spec units_in "imperial") as [->|Hi];
    cbn [orb].
  - right. left. reflexivity.
  - destruct (String.eqb_spec units_in "metric") as [->|Hm].
    + right. right. reflexivity.
    + exact H.
Qed.

Lemma units_set_by_constructor (a : CtorArgs) (b : Boot) (st : Station) :
  TwilioWeatherStation P a b = Some st ->
  unit_type st = c_str (unit_type_in a).
Proof.
  unfold TwilioWeatherStation.
  destruct (constructor_body P a b (initialised a)) as [[[] st0]|] eqn:E;
    [|discriminate].
  cbn [option_map snd]. intros H. injection H as <-.
  assert (Hk : preserves (fun x => unit_type x = c_str (unit_type_in a))
                 (constructor_body P a b)).
  { unfold constructor_body, _display_bmp_sensor_details, update_alarm,
      make_observation, _handle_alarm, update_shadow_state,
      get_weather_report, print_observation.
    keep_fields. }
  exact (Hk (initialised a) tt st0 eq_refl E).
Qed.

(** X17: the constructor stores the C string of its unit-type argument as it
    is, whatever it is; after every run of public calls the unit type is
    that string still, or one of "imperial" and "metric" (which only
    [update_units] makes it). *)
Theorem units_stay_recognised (a : CtorArgs) (b : Boot) (l : list Call)
    (st0 st : Station) :
  TwilioWeatherStation P a b = Some st0 ->
  run_calls P l st0 = Some (tt, st) ->
  unit_type st0 = c_str (unit_type_in a)
  /\ (unit_type st = c_str (unit_type_in a)
      \/ recognised_units (unit_type st)).
Proof.
  intros Hnew Hrun.
  pose proof (units_set_by_constructor a b st0 Hnew) as H0.
  split; [exact H0|].
  assert (Hst0 : unit_type st0 = c_str (unit_type_in a)
                 \/ recognised_units (unit_type st0)) by (left; exact H0).
  clear Hnew H0. revert st0 Hst0 Hrun.
  induction l as [|c l IH]; intros st0 Hst0; cbn [run_calls].
  - intros E. apply some_state_eq in E. subst st. exact Hst0.
  - unfold bind.
    destruct (perform P c st0) as [[[] st1]|] eqn:E; [|discriminate].
    apply IH. exact (units_kept_by_calls _ c st0 tt st1 Hst0 E).
Qed.

End Never.

(** ** Construction *)

Lemma hoare_bind {A B : Type} (Pre Mid Post : Station -> Prop)
    (m : M A) (k : A -> M B) :
  hoare Pre m Mid -> (forall a, hoare Mid (k a) Post) ->
  hoare Pre (bind m k) Post.
Proof.
  intros Hm Hk st Hpre. unfold bind.
  destruct (Hm st Hpre) as [a [st1 [-> Hmid]]].
  exact (Hk a st1 Hmid).
Qed.

Lemma hoare_modify (Pre Post : Station -> Prop) (f : Station -> Station) :
  (forall st, Pre st -> Post (f st)) -> hoare Pre (modify f) Post.
Proof. intros Hf st H. exists tt, (f st). split; [reflexivity | auto]. Qed.

Lemma starting_ignores_serial (a : CtorArgs) : ignores_serial (starting a).
Proof.
  intros st e Hs Hp [Ho [Hc [Hn Hm]]]. unfold starting.
  cbn [set_log last_observation log].
  repeat apply conj; try assumption.
  - rewrite sends_app, Hn. unfold sends. cbn [filter]. rewrite Hs.
    reflexivity.
  - rewrite publishes_app, Hm. unfold publishes. cbn [filter]. rewrite Hp.
    reflexivity.
Qed.

(** The walk through prints and other calls that are neither messages nor
    publications. *)
Ltac step_quiet HI :=
  repeat lazymatch goal with
    | |- always _ (bind _ _) => apply always_bind; [|intros ?]
    | |- always _ (if _ then _ else _) => apply always_if
    | |- always _ (ret _) => apply always_ret
    | |- always _ get => apply always_get
    | |- always _ (print_to_serial _) => apply (always_print _ _ HI)
    | |- always _ (emit _) => apply (always_emit _ _ HI); reflexivity
    end.

Section Construction.

Context (P : Platform).

(** The constructor up to its first observation, and after it. *)
Lemma constructor_run (a : CtorArgs) (b : Boot) (Q : Station -> Prop) :
  ignores_serial Q ->
  (forall st, booting a b st ->
     exists st', make_observation P (boot_sample b) st = Some (tt, st')
                 /\ Q st') ->
  exists st, TwilioWeatherStation P a b = Some st /\ Q st.
Proof.
  intros HQ Hobs.
  pose proof (starting_ignores_serial a) as HI.
  assert (H : hoare (starting a) (constructor_body P a b) Q).
  { unfold constructor_body.
    apply (hoare_bind _ (starting a)).
    { apply hoare_modify. intros st [_ H]. split; [reflexivity | exact H]. }
    intros _. apply (hoare_bind _ (starting a)).
    { change (always (starting a) (emit DhtBegin)). step_quiet HI. }
    intros _. apply (hoare_bind _ (starting a)).
    { match goal with
      | |- hoare _ ?m _ => change (always (starting a) m)
      end. step_quiet HI. }
    intros _. apply (hoare_bind _ (starting a)).
    { change (always (starting a)
                (_display_bmp_sensor_details (boot_sensor b))).
      unfold _display_bmp_sensor_details. step_quiet HI. }
    intros _. apply (hoare_bind _ (starting a)).
    { change (always (starting a) (emit NtpBegin)). step_quiet HI. }
    intros _. apply (hoare_bind _ (starting a)).
    { change (always (starting a) (emit NtpUpdate)). step_quiet HI. }
    intros _.
    apply (hoare_bind _ (fun st => starting a st
                                   /\ last_weather_check st = boot_millis b)).
    { apply hoare_modify. intros st H. split; [exact H | reflexivity]. }
    intros _.
    apply (hoare_bind _ (fun st => starting a st
                                   /\ last_weather_check st = boot_millis b
                                   /\ next_alarm st = mkAlarm 0 true)).
    { apply hoare_modify. intros st [H1 H2].
      split; [exact H1 | split; [exact H2 | reflexivity]]. }
    intros _. apply (hoare_bind _ (booting a b)).
    { intros st [Hs [Hw Ha]]. exists tt.
      destruct (Z.eq_dec (timestamp (next_alarm st)) (next_alarm_in a))
        as [He|Hne].
      - exists st. rewrite update_alarm_same by exact He.
        split; [reflexivity|].
        split; [exact Hs | split; [exact Hw|]].
        rewrite Ha in He. cbn [timestamp] in He. rewrite <- He, Ha.
        reflexivity.
      - exists (alarm_updated (next_alarm_in a) st).
        rewrite update_alarm_changed by exact Hne.
        split; [reflexivity|].
        destruct Hs as [Ho [Hc [Hn Hp]]].
        unfold booting, starting.
        cbn [alarm_updated set_log set_next_alarm last_observation
             next_alarm log last_weather_check].
        rewrite Ho. cbn [blank_observation epoch].
        repeat apply conj; try assumption; try reflexivity.
        + rewrite sends_app, Hn. reflexivity.
        + rewrite publishes_app, Hp. reflexivity. }
    intros _. apply (hoare_bind _ Q).
    { intros st Hb. destruct (Hobs st Hb) as [st' [Hm Hq]].
      exists tt, st'. split; assumption. }
    intros _. apply (hoare_bind _ Q).
    { change (always Q get). apply always_get. }
    intros st1.
    change (always Q (print_observation P (boot_time b)
                        (last_observation st1))).
    apply always_print_observation. exact HQ. }
  destruct (H (initialised a)) as [[] [st [Hrun Hq]]].
  { repeat split. }
  exists st. unfold TwilioWeatherStation. rewrite Hrun.
  split; [reflexivity | exact Hq].
Qed.

(** X18: the constructor compares the [int32_t] alarm it is given with epoch
    0, no observation being made yet: the alarm is rung when its timestamp
    is 0 or negative, and armed when it is positive, however long ago that
    time was.  When the first observation does not ring it (the timestamp
    is not positive, or the sensors fail, or the epoch is not past the
    timestamp, or is past it by 360 seconds or more, or the end of the
    window is beyond the [int32_t] range), the station is returned with
    that alarm, the preferences of the arguments (as C strings), the first
    reading of [millis()] and the first observation (or the blank one
    after a sensor fault), nothing sent, nothing published. *)
Theorem constructor_without_ring (a : CtorArgs) (b : Boot) :
  I32.in_range (next_alarm_in a) ->
  next_alarm_in a <= 0
  \/ sensors_ok (boot_sample b) = false
  \/ epoch (observed (boot_sample b)) <= next_alarm_in a
  \/ next_alarm_in a + 360 <= epoch (observed (boot_sample b))
  \/ I32.max_signed < next_alarm_in a + 360 ->
  exists st,
    TwilioWeatherStation P a b = Some st
    /\ timestamp (next_alarm st) = next_alarm_in a
    /\ rang (next_alarm st) = (next_alarm_in a <=? 0)
    /\ last_observation st
       = (if sensors_ok (boot_sample b)
          then observed (boot_sample b) else blank_observation)
    /\ configuration st = configured a
    /\ last_weather_check st = boot_millis b
    /\ sends (log st) = 0%nat
    /\ publishes (log st) = 0%nat.
Proof.
  intros Hr Hno.
  assert (Hrang : ((0 >? next_alarm_in a) || (next_alarm_in a =? 0))
                  = (next_alarm_in a <=? 0)).
  { destruct (Z.leb_spec (next_alarm_in a) 0) as [Hle|Hgt].
    - apply orb_true_iff.
      destruct (Z.eq_dec (next_alarm_in a) 0) as [E|E].
      + right. apply Z.eqb_eq. exact E.
      + left. apply Z.gtb_lt. lia.
    - apply orb_false_iff. split.
      + apply Z_gtb_false. lia.
      + apply Z.eqb_neq. lia. }
  set (Q := fun st : Station =>
              timestamp (next_alarm st) = next_alarm_in a
              /\ rang (next_alarm st) = (next_alarm_in a <=? 0)
              /\ last_observation st
                 = (if sensors_ok (boot_sample b)
                    then observed (boot_sample b) else blank_observation)
              /\ configuration st = configured a
              /\ last_weather_check st = boot_millis b
              /\ sends (log st) = 0%nat
              /\ publishes (log st) = 0%nat).
  apply (constructor_run a b Q).
  - intros st e Hs Hp [H1 [H2 [H3 [H4 [H5 [H6 H7]]]]]]. unfold Q.
    cbn [set_log next_alarm last_observation last_weather_check log].
    repeat apply conj; try assumption.
    + rewrite sends_app, H6. unfold sends. cbn [filter]. rewrite Hs.
      reflexivity.
    + rewrite publishes_app, H7. unfold publishes. cbn [filter].
      rewrite Hp. reflexivity.
  - intros st [[Ho [Hc [Hn Hp]]] [Hw Ha]].
    destruct (sensors_ok (boot_sample b)) eqn:Hok.
    + exists (set_last_observation (observed (boot_sample b)) st).
      split.
      * rewrite make_observation_ok by exact Hok.
        change (I32.wrap (ntp_epoch (boot_sample b)))
          with (epoch (observed (boot_sample b))).
        destruct (rings (next_alarm st) (epoch (observed (boot_sample b))))
          eqn:E; [|reflexivity].
        rewrite Ha in E.
        apply rings_int32 in E; [|exact Hr|apply I32_wrap_range].
        cbn [timestamp rang] in E. destruct E as [Hf [Hwin Hfit]].
        rewrite Hrang in Hf. apply Z.leb_gt in Hf.
        destruct Hno as [H|[H|[H|[H|H]]]];
          [lia | discriminate | lia | lia | lia].
      * unfold Q.
        cbn [set_last_observation next_alarm last_observation
             last_weather_check log].
        rewrite Ha. cbn [timestamp rang].
        repeat apply conj; try assumption; try reflexivity.
    + exists (sensor_fault_outcome st).
      rewrite make_observation_fault by exact Hok.
      split; [reflexivity|]. unfold Q.
      cbn [sensor_fault_outcome set_log next_alarm last_observation
           last_weather_check log].
      rewrite Ha. cbn [timestamp rang].
      repeat apply conj; try assumption; try reflexivity.
      * rewrite sends_app, Hn. reflexivity.
      * rewrite publishes_app, Hp. reflexivity.
Qed.

(** X19: the first observation can ring the alarm the constructor was
    given: with a positive timestamp [T] such that [T + 360] is in the
    [int32_t] range, good readings, a day index of 0 to 6 and an epoch [E]
    with [T < E < T + 360], the constructor returns a station whose alarm
    is rung at [T], with exactly one message sent and one document
    published. *)
Theorem constructor_rings_at_boot (a : CtorArgs) (b : Boot) :
  0 < next_alarm_in a ->
  I32.in_range (next_alarm_in a + ALARM_WINDOW) ->
  sensors_ok (boot_sample b) = true ->
  next_alarm_in a < epoch (observed (boot_sample b)) < next_alarm_in a + 360 ->
  0 <= day (observed (boot_sample b)) < 7 ->
  exists st,
    TwilioWeatherStation P a b = Some st
    /\ next_alarm st = mkAlarm (next_alarm_in a) true
    /\ last_observation st = observed (boot_sample b)
    /\ sends (log st) = 1%nat
    /\ publishes (log st) = 1%nat.
Proof.
  intros Hpos Hr Hok Hwin Hd.
  set (Q := fun st : Station =>
              next_alarm st = mkAlarm (next_alarm_in a) true
              /\ last_observation st = observed (boot_sample b)
              /\ sends (log st) = 1%nat
              /\ publishes (log st) = 1%nat).
  apply (constructor_run a b Q).
  - intros st e Hs Hp [H1 [H2 [H3 H4]]]. unfold Q.
    cbn [set_log next_alarm last_observation log].
    repeat apply conj; try assumption.
    + rewrite sends_app, H3. unfold sends. cbn [filter]. rewrite Hs.
      reflexivity.
    + rewrite publishes_app, H4. unfold publishes. cbn [filter].
      rewrite Hp. reflexivity.
  - intros st [[Ho [Hc [Hn Hp]]] [Hw Ha]].
    assert (Hf : ((0 >? next_alarm_in a) || (next_alarm_in a =? 0)) = false).
    { apply orb_false_iff. split.
      - apply Z_gtb_false. lia.
      - apply Z.eqb_neq. lia. }
    rewrite Hf in Ha.
    assert (Hrings : rings (next_alarm st) (epoch (observed (boot_sample b)))
                     = true).
    { rewrite Ha. apply rings_spec; [exact Hr|].
      cbn [timestamp rang]. split; [reflexivity | exact Hwin]. }
    destruct (make_observation_rings P (boot_sample b) st Hok Hrings Hd)
      as [w [_ Hm]].
    exists (fired P (ringing (boot_sample b) st) w).
    split; [exact Hm|]. unfold Q.
    cbn [fired ringing set_log set_rang set_next_alarm set_last_observation
         next_alarm last_observation log timestamp].
    rewrite Ha. cbn [timestamp].
    repeat apply conj; try reflexivity.
    + rewrite <- app_assoc, sends_app, Hn. reflexivity.
    + rewrite <- app_assoc, publishes_app, Hp. reflexivity.
Qed.

End Construction.

(** ** Concrete runs of the further properties *)

Lemma armed_window_in_range :
  I32.in_range (timestamp (next_alarm Bench.armed) + ALARM_WINDOW).
Proof. vm_compute. split; discriminate. Defined.

Lemma rung_run :
  make_observation Bench.platform (Bench.sample_at 6100) Bench.armed
  = Some (tt, Bench.rung).
Proof. vm_compute. reflexivity. Defined.

Lemma armed_in_range : I32.in_range (timestamp (next_alarm Bench.armed)).
Proof. vm_compute. split; discriminate. Defined.

Lemma sample_without_ring_witness :
  (sensors_ok (Bench.sample_at 7000) = true
   /\ I32.in_range (timestamp (next_alarm Bench.armed))
   /\ timestamp (next_alarm Bench.armed)
      + 2 * (RECHECK_WEATHER_INTERVAL / 1000)
      <= epoch (observed (Bench.sample_at 7000)))
  /\ make_observation Bench.platform (Bench.sample_at 7000) Bench.armed
     = Some (tt, set_last_observation (observed (Bench.sample_at 7000))
                   Bench.armed).
Proof.
  assert (H : timestamp (next_alarm Bench.armed)
              + 2 * (RECHECK_WEATHER_INTERVAL / 1000)
              <= epoch (observed (Bench.sample_at 7000)))
    by (vm_compute; discriminate).
  split.
  - split; [reflexivity|]. split; [exact armed_in_range | exact H].
  - apply (sample_without_ring Bench.platform (Bench.sample_at 7000)
             Bench.armed eq_refl armed_in_range).
    right. right. left. exact H.
Defined.

Lemma sample_message_count_witness :
  (I32.in_range (timestamp (next_alarm Bench.armed))
   /\ make_observation Bench.platform (Bench.sample_at 6100) Bench.armed
      = Some (tt, Bench.rung)
   /\ sensors_ok (Bench.sample_at 6100) = true
   /\ rang (next_alarm Bench.armed) = false
   /\ timestamp (next_alarm Bench.armed)
      < epoch (observed (Bench.sample_at 6100))
      < timestamp (next_alarm Bench.armed) + 360
   /\ timestamp (next_alarm Bench.armed) + 360 <= I32.max_signed)
  /\ sends (log Bench.rung) = (sends (log Bench.armed) + 1)%nat
  /\ publishes (log Bench.rung) = (publishes (log Bench.armed) + 1)%nat.
Proof.
  assert (Hc : sensors_ok (Bench.sample_at 6100) = true
               /\ rang (next_alarm Bench.armed) = false
               /\ timestamp (next_alarm Bench.armed)
                  < epoch (observed (Bench.sample_at 6100))
                  < timestamp (next_alarm Bench.armed) + 360
               /\ timestamp (next_alarm Bench.armed) + 360
                  <= I32.max_signed).
  { split; [reflexivity|]. split; [reflexivity|].
    split; [split; reflexivity|]. vm_compute. discriminate. }
  split.
  - split; [exact armed_in_range|]. split; [exact rung_run | exact Hc].
  - exact (proj1 (sample_message_count Bench.platform (Bench.sample_at 6100)
                    Bench.armed Bench.rung armed_in_range rung_run) Hc).
Defined.

Lemma sample_keeps_configuration_witness :
  make_observation Bench.platform (Bench.sample_at 6100) Bench.armed
  = Some (tt, Bench.rung)
  /\ configuration Bench.rung = configuration Bench.armed
  /\ last_weather_check Bench.rung = last_weather_check Bench.armed
  /\ timestamp (next_alarm Bench.rung) = timestamp (next_alarm Bench.armed)
  /\ (rang (next_alarm Bench.armed) = true
      -> rang (next_alarm Bench.rung) = true).
Proof.
  split; [exact rung_run|].
  exact (sample_keeps_configuration Bench.platform (Bench.sample_at 6100)
           Bench.armed Bench.rung rung_run).
Defined.

Lemma disabled_alarm_never_fires_witness :
  (reachable Bench.platform Bench.booted
   /\ timestamp (next_alarm Bench.booted) = 0)
  /\ exists st',
       make_observation Bench.platform (Bench.sample_at 6100) Bench.booted
       = Some (tt, st')
       /\ next_alarm st' = next_alarm Bench.booted
       /\ sends (log st') = sends (log Bench.booted)
       /\ publishes (log st') = publishes (log Bench.booted).
Proof.
  assert (H0 : timestamp (next_alarm Bench.booted) = 0)
    by (vm_compute; reflexivity).
  split; [split; [exact booted_reachable | exact H0]|].
  exact (disabled_alarm_never_fires Bench.platform (Bench.sample_at 6100)
           Bench.booted booted_reachable H0).
Defined.

Lemma missed_alarm_stays_unrung_witness :
  (rang (next_alarm Bench.armed) = false
   /\ I32.in_range (timestamp (next_alarm Bench.armed) + ALARM_WINDOW)
   /\ Forall (fun s => timestamp (next_alarm Bench.armed) + 360
                       <= epoch (observed s))
        [Bench.sample_at 6360; Bench.sample_at 7000])
  /\ exists st',
       run_samples Bench.platform
         [Bench.sample_at 6360; Bench.sample_at 7000] Bench.armed
       = Some (tt, st')
       /\ next_alarm st' = next_alarm Bench.armed
       /\ sends (log st') = sends (log Bench.armed)
       /\ publishes (log st') = publishes (log Bench.armed).
Proof.
  assert (H : Forall (fun s => timestamp (next_alarm Bench.armed) + 360
                               <= epoch (observed s))
                [Bench.sample_at 6360; Bench.sample_at 7000]).
  { repeat constructor; vm_compute; discriminate. }
  split.
  - split; [reflexivity|]. split; [exact armed_window_in_range | exact H].
  - exact (missed_alarm_stays_unrung Bench.platform
             [Bench.sample_at 6360; Bench.sample_at 7000] Bench.armed
             eq_refl armed_window_in_range H).
Defined.

Lemma update_alarm_future_arms_witness :
  (5000 <> 0
   /\ 5000 <> timestamp (next_alarm Bench.idle)
   /\ epoch (last_observation Bench.idle) <= 5000)
  /\ update_alarm 5000 Bench.idle
     = Some (tt,
             set_log
               (log Bench.idle ++ [Serial (SStr "Alarm updated to: ");
                                   Serial (SInt 5000);
                                   Serial (SStr CRLF)])
               (set_next_alarm (mkAlarm 5000 false) Bench.idle)).
Proof.
  assert (H1 : 5000 <> 0) by discriminate.
  assert (H2 : 5000 <> timestamp (next_alarm Bench.idle)) by discriminate.
  assert (H3 : epoch (last_observation Bench.idle) <= 5000)
    by (vm_compute; discriminate).
  split; [exact (conj H1 (conj H2 H3))|].
  exact (update_alarm_future_arms 5000 Bench.idle H1 H2 H3).
Defined.

Lemma arm_then_sample_rings_witness :
  (6000 <> 0
   /\ 6000 <> timestamp (next_alarm Bench.idle)
   /\ epoch (last_observation Bench.idle) <= 6000
   /\ sensors_ok (Bench.sample_at 6100) = true
   /\ I32.in_range (6000 + ALARM_WINDOW)
   /\ 6000 < epoch (observed (Bench.sample_at 6100)) < 6000 + 360
   /\ 0 <= day (observed (Bench.sample_at 6100)) < 7)
  /\ exists st1 st2,
       update_alarm 6000 Bench.idle = Some (tt, st1)
       /\ rang (next_alarm st1) = false
       /\ make_observation Bench.platform (Bench.sample_at 6100) st1
          = Some (tt, st2)
       /\ rang (next_alarm st2) = true
       /\ timestamp (next_alarm st2) = 6000
       /\ sends (log st2) = (sends (log Bench.idle) + 1)%nat
       /\ publishes (log st2) = (publishes (log Bench.idle) + 1)%nat.
Proof.
  assert (H1 : 6000 <> 0) by discriminate.
  assert (H2 : 6000 <> timestamp (next_alarm Bench.idle)) by discriminate.
  assert (H3 : epoch (last_observation Bench.idle) <= 6000)
    by (vm_compute; discriminate).
  assert (H4 : sensors_ok (Bench.sample_at 6100) = true) by reflexivity.
  assert (H5 : I32.in_range (6000 + ALARM_WINDOW))
    by (vm_compute; split; discriminate).
  assert (H6 : 6000 < epoch (observed (Bench.sample_at 6100)) < 6000 + 360)
    by (vm_compute; split; reflexivity).
  assert (H7 : 0 <= day (observed (Bench.sample_at 6100)) < 7)
    by (vm_compute; split; [discriminate | reflexivity]).
  split;
    [exact (conj H1 (conj H2 (conj H3 (conj H4 (conj H5 (conj H6 H7))))))|].
  exact (arm_then_sample_rings Bench.platform 6000 (Bench.sample_at 6100)
           Bench.idle H1 H2 H3 H4 H5 H6 H7).
Defined.

Lemma ring_then_rearm_witness :
  (Armed (next_alarm Bench.armed)
   /\ sensors_ok (Bench.sample_at 6100) = true
   /\ timestamp (next_alarm Bench.armed) + 86400 <= I32.max_signed
   /\ timestamp (next_alarm Bench.armed)
      < epoch (observed (Bench.sample_at 6100))
      < timestamp (next_alarm Bench.armed) + 360
   /\ 0 <= day (observed (Bench.sample_at 6100)) < 7)
  /\ exists st1 st2,
       make_observation Bench.platform (Bench.sample_at 6100) Bench.armed
       = Some (tt, st1)
       /\ rang (next_alarm st1) = true
       /\ last_published (log st1)
          = Some (json_printTo Bench.platform
                    (desired_document
                       (timestamp (next_alarm Bench.armed) + 86400)
                       (unit_type Bench.armed)
                       (location_altitude Bench.armed)
                       (time_zone_offset Bench.armed)
                       (twilio_device_number Bench.armed)
                       (master_number Bench.armed))
                    (maxMQTTpackageSize Bench.platform))
       /\ shadow_field "desired" "alarm"
            (desired_document
               (timestamp (next_alarm Bench.armed) + 86400)
               (unit_type Bench.armed)
               (location_altitude Bench.armed)
               (time_zone_offset Bench.armed)
               (twilio_device_number Bench.armed)
               (master_number Bench.armed))
          = Some (JInt (timestamp (next_alarm Bench.armed) + 86400))
       /\ update_alarm (timestamp (next_alarm Bench.armed) + 86400) st1
          = Some (tt, st2)
       /\ rang (next_alarm st2) = false
       /\ timestamp (next_alarm st2)
          = timestamp (next_alarm Bench.armed) + 86400.
Proof.
  assert (H1 : Armed (next_alarm Bench.armed))
    by (split; reflexivity).
  assert (H2 : sensors_ok (Bench.sample_at 6100) = true) by reflexivity.
  assert (H3 : timestamp (next_alarm Bench.armed) + 86400 <= I32.max_signed)
    by (vm_compute; discriminate).
  assert (H4 : timestamp (next_alarm Bench.armed)
               < epoch (observed (Bench.sample_at 6100))
               < timestamp (next_alarm Bench.armed) + 360)
    by (vm_compute; split; reflexivity).
  assert (H5 : 0 <= day (observed (Bench.sample_at 6100)) < 7)
    by (vm_compute; split; [discriminate | reflexivity]).
  split; [exact (conj H1 (conj H2 (conj H3 (conj H4 H5))))|].
  exact (ring_then_rearm Bench.platform (Bench.sample_at 6100) Bench.armed
           H1 H2 H3 H4 H5).
Defined.

Lemma yield_stalls_after_rollover_witness :
  (2 ^ 32 - 1 <= last_weather_check Bench.late + RECHECK_WEATHER_INTERVAL
   < 2 ^ 64
   /\ Forall (fun t => 0 <= tick_millis t < 2 ^ 32)
        [Bench.tick 0 (Bench.sample_at 9000);
         Bench.tick 4294967295 (Bench.sample_at 9100)])
  /\ exists st',
       run_ticks Bench.platform
         [Bench.tick 0 (Bench.sample_at 9000);
          Bench.tick 4294967295 (Bench.sample_at 9100)] Bench.late
       = Some (tt, st')
       /\ last_observation st' = last_observation Bench.late
       /\ next_alarm st' = next_alarm Bench.late
       /\ last_weather_check st' = last_weather_check Bench.late
       /\ sends (log st') = sends (log Bench.late)
       /\ publishes (log st') = publishes (log Bench.late).
Proof.
  assert (H1 : 2 ^ 32 - 1
               <= last_weather_check Bench.late + RECHECK_WEATHER_INTERVAL
               < 2 ^ 64)
    by (vm_compute; split; [discriminate | reflexivity]).
  assert (H2 : Forall (fun t => 0 <= tick_millis t < 2 ^ 32)
                 [Bench.tick 0 (Bench.sample_at 9000);
                  Bench.tick 4294967295 (Bench.sample_at 9100)]).
  { repeat constructor; vm_compute; try discriminate; reflexivity. }
  split; [split; assumption|].
  exact (yield_stalls_after_rollover Bench.platform _ Bench.late H1 H2).
Defined.

Lemma yield_due_samples_witness :
  (U64.add (last_weather_check Bench.armed) RECHECK_WEATHER_INTERVAL
   < tick_millis (Bench.tick 200000 (Bench.sample_at 6100))
   /\ make_observation Bench.platform
        (tick_sample (Bench.tick 200000 (Bench.sample_at 6100))) Bench.armed
      = Some (tt, Bench.rung))
  /\ exists st',
       yield Bench.platform (Bench.tick 200000 (Bench.sample_at 6100))
         Bench.armed
       = Some (tt, st')
       /\ last_weather_check st' = 200000
       /\ last_observation st' = last_observation Bench.rung
       /\ next_alarm st' = next_alarm Bench.rung
       /\ configuration st' = configuration Bench.rung
       /\ sends (log st') = sends (log Bench.rung)
       /\ publishes (log st') = publishes (log Bench.rung).
Proof.
  assert (H1 : U64.add (last_weather_check Bench.armed)
                 RECHECK_WEATHER_INTERVAL
               < tick_millis (Bench.tick 200000 (Bench.sample_at 6100)))
    by (vm_compute; reflexivity).
  split; [split; [exact H1 | exact rung_run]|].
  exact (yield_due_samples Bench.platform
           (Bench.tick 200000 (Bench.sample_at 6100)) Bench.armed Bench.rung
           H1 rung_run).
Defined.

Lemma int_to_day_bounds_witness :
  0 <= 3 < 7
  /\ int_to_day 3 = Some "Wed."
  /\ (exists name, int_to_day 3 = Some name)
  /\ String.length "Wed." = 4%nat
  /\ (int_to_day 3 = Some "Wed." -> int_to_day 3 = Some "Wed." -> 3 = 3).
Proof.
  assert (Hr : 0 <= 3 < 7) by (split; [discriminate | reflexivity]).
  assert (Hn : int_to_day 3 = Some "Wed.") by reflexivity.
  destruct (int_to_day_bounds 3) as [[_ H1] [H2 H3]].
  exact (conj Hr (conj Hn (conj (H1 Hr) (conj (H2 "Wed." Hn)
                                           (H3 3 "Wed."))))).
Defined.

Lemma weather_report_intro_witness :
  (nul_free Bench.long_intro
   /\ 0 <= day (last_observation Bench.idle) < 7
   /\ (159 <= String.length Bench.long_intro)%nat)
  /\ exists w,
       weather_report_text Bench.platform Bench.long_intro Bench.idle = Some w
       /\ w = take 159 Bench.long_intro.
Proof.
  assert (Hn : nul_free Bench.long_intro) by (vm_compute; reflexivity).
  assert (Hd : 0 <= day (last_observation Bench.idle) < 7)
    by (vm_compute; split; [discriminate | reflexivity]).
  assert (Hl : (159 <= String.length Bench.long_intro)%nat)
    by (vm_compute; repeat constructor).
  split; [exact (conj Hn (conj Hd Hl))|].
  destruct (weather_report_intro Bench.platform Bench.long_intro Bench.idle
              Hn Hd) as [w [Hw [_ Hcut]]].
  exists w. split; [exact Hw | exact (Hcut Hl)].
Defined.

Lemma setters_touch_one_member_witness :
  (reports Bench.platform "shadow" (ret tt) Bench.idle
     (reported_document Bench.idle)
   /\ "tz" <> "alt"
   /\ reports Bench.platform "shadow" (update_alt 300) Bench.idle
        (reported_document (alt_updated 300 Bench.idle)))
  /\ shadow_field "reported" "tz"
       (reported_document (alt_updated 300 Bench.idle))
     = shadow_field "reported" "tz" (reported_document Bench.idle).
Proof.
  assert (H0 : reports Bench.platform "shadow" (ret tt) Bench.idle
                 (reported_document Bench.idle))
    by (exact (reports_run Bench.platform (ret tt) "shadow" Bench.idle
                 Bench.idle eq_refl)).
  assert (H : "tz" <> "alt") by discriminate.
  assert (H1 : reports Bench.platform "shadow" (update_alt 300) Bench.idle
                 (reported_document (alt_updated 300 Bench.idle)))
    by (exact (reports_run Bench.platform (update_alt 300) "shadow"
                 Bench.idle _ (update_alt_run 300 Bench.idle))).
  split; [exact (conj H0 (conj H H1))|].
  destruct (setters_touch_one_member Bench.platform "shadow" "tz" Bench.idle
              (reported_document Bench.idle) H0)
    as [_ [Halt _]].
  exact (Halt 300 _ H H1).
Defined.

Lemma only_samples_send_witness :
  (perform Bench.platform (CallUpdateAlarm 6000) Bench.idle
   = Some (tt, alarm_updated 6000 Bench.idle)
   /\ samples (CallUpdateAlarm 6000) = false
   /\ publishing (CallUpdateAlarm 6000) = false)
  /\ sends (log (alarm_updated 6000 Bench.idle)) = sends (log Bench.idle)
  /\ publishes (log (alarm_updated 6000 Bench.idle))
     = publishes (log Bench.idle).
Proof.
  assert (H : perform Bench.platform (CallUpdateAlarm 6000) Bench.idle
              = Some (tt, alarm_updated 6000 Bench.idle))
    by (vm_compute; reflexivity).
  split; [exact (conj H (conj eq_refl eq_refl))|].
  destruct (only_samples_send Bench.platform (CallUpdateAlarm 6000)
              Bench.idle (alarm_updated 6000 Bench.idle) H) as [Hs Hp].
  split; [exact (Hs eq_refl) | exact (Hp eq_refl)].
Defined.

Lemma units_stay_recognised_witness :
  (TwilioWeatherStation Bench.platform Bench.args_kelvin Bench.boot
   = Some Bench.booted_kelvin
   /\ run_calls Bench.platform [CallUpdateUnits "bogus"] Bench.booted_kelvin
      = Some (tt, Bench.refused_kelvin))
  /\ unit_type Bench.booted_kelvin = c_str (unit_type_in Bench.args_kelvin)
  /\ (unit_type Bench.refused_kelvin = c_str (unit_type_in Bench.args_kelvin)
      \/ recognised_units (unit_type Bench.refused_kelvin)).
Proof.
  assert (H2 : TwilioWeatherStation Bench.platform Bench.args_kelvin
                 Bench.boot
               = Some Bench.booted_kelvin) by (vm_compute; reflexivity).
  assert (H3 : run_calls Bench.platform [CallUpdateUnits "bogus"]
                 Bench.booted_kelvin
               = Some (tt, Bench.refused_kelvin))
    by (vm_compute; reflexivity).
  split; [exact (conj H2 H3)|].
  exact (units_stay_recognised Bench.platform Bench.args_kelvin Bench.boot
           [CallUpdateUnits "bogus"] Bench.booted_kelvin
           Bench.refused_kelvin H2 H3).
Defined.

Lemma constructor_without_ring_witness :
  (I32.in_range (next_alarm_in Bench.args)
   /\ next_alarm_in Bench.args <= 0)
  /\ exists st,
       TwilioWeatherStation Bench.platform Bench.args Bench.boot = Some st
       /\ timestamp (next_alarm st) = 0
       /\ rang (next_alarm st) = true
       /\ last_observation st = observed (Bench.sample_at 5000)
       /\ configuration st = configured Bench.args
       /\ last_weather_check st = 1000
       /\ sends (log st) = 0%nat
       /\ publishes (log st) = 0%nat.
Proof.
  assert (H1 : I32.in_range (next_alarm_in Bench.args))
    by (vm_compute; split; discriminate).
  assert (H2 : next_alarm_in Bench.args <= 0) by (vm_compute; discriminate).
  split; [split; assumption|].
  exact (constructor_without_ring Bench.platform Bench.args Bench.boot H1
           (or_introl H2)).
Defined.

Lemma constructor_rings_at_boot_witness :
  (0 < next_alarm_in Bench.args_alarm
   /\ I32.in_range (next_alarm_in Bench.args_alarm + ALARM_WINDOW)
   /\ sensors_ok (boot_sample Bench.boot) = true
   /\ next_alarm_in Bench.args_alarm
      < epoch (observed (boot_sample Bench.boot))
      < next_alarm_in Bench.args_alarm + 360
   /\ 0 <= day (observed (boot_sample Bench.boot)) < 7)
  /\ exists st,
       TwilioWeatherStation Bench.platform Bench.args_alarm Bench.boot
       = Some st
       /\ next_alarm st = mkAlarm 4900 true
       /\ last_observation st = observed (boot_sample Bench.boot)
       /\ sends (log st) = 1%nat
       /\ publishes (log st) = 1%nat.
Proof.
  assert (H1 : 0 < next_alarm_in Bench.args_alarm) by reflexivity.
  assert (H2 : I32.in_range (next_alarm_in Bench.args_alarm + ALARM_WINDOW))
    by (vm_compute; split; discriminate).
  assert (H3 : sensors_ok (boot_sample Bench.boot) = true) by reflexivity.
  assert (H4 : next_alarm_in Bench.args_alarm
               < epoch (observed (boot_sample Bench.boot))
               < next_alarm_in Bench.args_alarm + 360)
    by (vm_compute; split; reflexivity).
  assert (H5 : 0 <= day (observed (boot_sample Bench.boot)) < 7)
    by (vm_compute; split; [discriminate | reflexivity]).
  split; [exact (conj H1 (conj H2 (conj H3 (conj H4 H5))))|].
  exact (constructor_rings_at_boot Bench.platform Bench.args_alarm Bench.boot
           H1 H2 H3 H4 H5).
Defined.
